(** * Conditional-RatSPN: the experiment runner [experiments/cspn_sac_sb3.py]

    The script is orchestration glue: it parses the command line, checks a
    few preconditions with [assert], and then, for every seed, builds
    directories, an environment and a model and hands them to the training
    loop of the RL library.

    The embedding below follows the script statement by statement.  The
    script's own variables ([args], [learn], [run]) and the directories it
    creates live in an explicit state; every call into a library (wandb,
    stable-baselines3, gym, os.makedirs, print) is recorded as an event
    carrying the arguments the script passes.  What a library returns to the
    script (the observation space of the environment, the attributes of a
    loaded model, the environment variables, ...) is read from a [World]
    record.  Library calls are taken to return normally; the exceptions that
    are modelled are the ones the script's own statements raise.  Assertions
    are enabled (the interpreter is not run with [-O]). *)

From Stdlib Require Import ZArith Ascii String List Bool Lia.
From Stdlib Require Import DecimalString.
From Stdlib Require DecimalPos DecimalZ.
From Stdlib Require Import Floats.SpecFloat.
Import ListNotations.

Set Warnings "-register-all".

Open Scope string_scope.
Open Scope Z_scope.

(** ** Values of the command line *)

(** A Python [float] is an IEEE binary64 number; the script never computes
    with one, it only stores and forwards them. *)
Definition float := spec_float.

(** The [argparse.Namespace] returned by [parser.parse_args()] (lines 23-72).
    Python integers are unbounded, hence [Z].  A flag without default that
    was not given is [None]. *)
Record Namespace := mkNamespace {
  seed : list Z;
  mlp_actor : bool;
  num_envs : Z;
  timesteps : Z;
  save_interval : option Z;
  log_interval : Z;
  env_name : string;
  device : string;
  proj_name : string;
  run_name : string;
  log_dir : string;
  model_path : option string;
  no_wandb : bool;
  no_video : bool;
  ent_coef : float;
  learning_rate : float;
  learning_starts : Z;
  buffer_size : Z;
  joint_fail_prob : float;
  repetitions : Z;
  cspn_depth : option Z;
  num_dist : Z;
  num_sums : Z;
  dropout : float;
  no_relu : bool;
  feat_layers : option (list Z);
  sum_param_layers : option (list Z);
  dist_param_layers : option (list Z);
  objective : option string;
  recurs_sample_size : Z;
  naive_sample_size : Z
}.

(** [args.save_interval = v] *)
Definition set_save_interval (v : option Z) (a : Namespace) : Namespace :=
  mkNamespace (seed a) (mlp_actor a) (num_envs a) (timesteps a) v
    (log_interval a) (env_name a) (device a) (proj_name a) (run_name a)
    (log_dir a) (model_path a) (no_wandb a) (no_video a) (ent_coef a)
    (learning_rate a) (learning_starts a) (buffer_size a) (joint_fail_prob a)
    (repetitions a) (cspn_depth a) (num_dist a) (num_sums a) (dropout a)
    (no_relu a) (feat_layers a) (sum_param_layers a) (dist_param_layers a)
    (objective a) (recurs_sample_size a) (naive_sample_size a).


(** The same for the flags that the examples below vary. *)
Definition set_timesteps (v : Z) (a : Namespace) : Namespace :=
  mkNamespace (seed a) (mlp_actor a) (num_envs a) v (save_interval a)
    (log_interval a) (env_name a) (device a) (proj_name a) (run_name a)
    (log_dir a) (model_path a) (no_wandb a) (no_video a) (ent_coef a)
    (learning_rate a) (learning_starts a) (buffer_size a) (joint_fail_prob a)
    (repetitions a) (cspn_depth a) (num_dist a) (num_sums a) (dropout a)
    (no_relu a) (feat_layers a) (sum_param_layers a) (dist_param_layers a)
    (objective a) (recurs_sample_size a) (naive_sample_size a).

Definition set_log_dir (v : string) (a : Namespace) : Namespace :=
  mkNamespace (seed a) (mlp_actor a) (num_envs a) (timesteps a)
    (save_interval a) (log_interval a) (env_name a) (device a) (proj_name a)
    (run_name a) v (model_path a) (no_wandb a) (no_video a) (ent_coef a)
    (learning_rate a) (learning_starts a) (buffer_size a) (joint_fail_prob a)
    (repetitions a) (cspn_depth a) (num_dist a) (num_sums a) (dropout a)
    (no_relu a) (feat_layers a) (sum_param_layers a) (dist_param_layers a)
    (objective a) (recurs_sample_size a) (naive_sample_size a).

Definition set_model_path (v : option string) (a : Namespace) : Namespace :=
  mkNamespace (seed a) (mlp_actor a) (num_envs a) (timesteps a)
    (save_interval a) (log_interval a) (env_name a) (device a) (proj_name a)
    (run_name a) (log_dir a) v (no_wandb a) (no_video a) (ent_coef a)
    (learning_rate a) (learning_starts a) (buffer_size a) (joint_fail_prob a)
    (repetitions a) (cspn_depth a) (num_dist a) (num_sums a) (dropout a)
    (no_relu a) (feat_layers a) (sum_param_layers a) (dist_param_layers a)
    (objective a) (recurs_sample_size a) (naive_sample_size a).

Definition set_no_wandb (v : bool) (a : Namespace) : Namespace :=
  mkNamespace (seed a) (mlp_actor a) (num_envs a) (timesteps a)
    (save_interval a) (log_interval a) (env_name a) (device a) (proj_name a)
    (run_name a) (log_dir a) (model_path a) v (no_video a) (ent_coef a)
    (learning_rate a) (learning_starts a) (buffer_size a) (joint_fail_prob a)
    (repetitions a) (cspn_depth a) (num_dist a) (num_sums a) (dropout a)
    (no_relu a) (feat_layers a) (sum_param_layers a) (dist_param_layers a)
    (objective a) (recurs_sample_size a) (naive_sample_size a).

Definition set_ent_coef (v : float) (a : Namespace) : Namespace :=
  mkNamespace (seed a) (mlp_actor a) (num_envs a) (timesteps a)
    (save_interval a) (log_interval a) (env_name a) (device a) (proj_name a)
    (run_name a) (log_dir a) (model_path a) (no_wandb a) (no_video a) v
    (learning_rate a) (learning_starts a) (buffer_size a) (joint_fail_prob a)
    (repetitions a) (cspn_depth a) (num_dist a) (num_sums a) (dropout a)
    (no_relu a) (feat_layers a) (sum_param_layers a) (dist_param_layers a)
    (objective a) (recurs_sample_size a) (naive_sample_size a).

(** The binary64 numbers nearest to the decimal defaults of lines 44-56. *)
Definition float_0_1 : float := S754_finite false 7205759403792794 (-56).
Definition float_3e_4 : float := S754_finite false 5534023222112865 (-64).
Definition float_0_05 : float := S754_finite false 7205759403792794 (-57).
Definition float_0_5 : float := S754_finite false 4503599627370496 (-53).
Definition float_0_0 : float := S754_zero false.

(** The namespace of a command line that gives only the two required flags,
    [--seed] and [--env_name]; every other field holds its default. *)
Definition parse_defaults (seeds : list Z) (env : string) : Namespace :=
  {| seed := seeds; mlp_actor := false; num_envs := 1; timesteps := 1000000;
     save_interval := None; log_interval := 4; env_name := env;
     device := "cuda"; proj_name := "test_proj"; run_name := "test_run";
     log_dir := "../../cspn_rl_experiments"; model_path := None;
     no_wandb := false; no_video := false; ent_coef := float_0_1;
     learning_rate := float_3e_4; learning_starts := 1000;
     buffer_size := 300000; joint_fail_prob := float_0_05; repetitions := 3;
     cspn_depth := None; num_dist := 3; num_sums := 3; dropout := float_0_0;
     no_relu := false; feat_layers := None; sum_param_layers := None;
     dist_param_layers := None; objective := None; recurs_sample_size := 5;
     naive_sample_size := 50 |}.

(** Python truth value of an optional integer: [None] and [0] are false. *)
Definition truthy_int (o : option Z) : bool :=
  match o with
  | Some z => negb (z =? 0)
  | None => false
  end.

(** Python truth value of an optional string: [None] and [''] are false. *)
Definition truthy_str (o : option string) : bool :=
  match o with
  | Some s => negb (s =? "")%string
  | None => false
  end.

(** [str(n)] for an integer. *)
Definition str_of_int (n : Z) : string := NilZero.string_of_int (Z.to_int n).

(** ** Paths *)

Definition startswith_sep (s : string) : bool :=
  match s with
  | String c _ => Ascii.eqb c "/"%char
  | EmptyString => false
  end.

Fixpoint endswith_sep (s : string) : bool :=
  match s with
  | EmptyString => false
  | String c EmptyString => Ascii.eqb c "/"%char
  | String _ r => endswith_sep r
  end.

(** [os.path.join(a, b)] on a POSIX system. *)
Definition os_path_join (a b : string) : string :=
  if startswith_sep b then b
  else if (a =? "")%string || endswith_sep a then a ++ b
  else a ++ "/" ++ b.

(** The file system as far as the script is concerned: the paths that exist,
    as they are spelled. *)
Definition FileSystem := list string.

(** [os.path.exists(p)]; the empty path never exists. *)
Definition os_path_exists (fs : FileSystem) (p : string) : bool :=
  match p with
  | EmptyString => false
  | _ => existsb (String.eqb p) fs
  end.

(** [(p[:i], p[i:])] for [i = p.rfind('/') + 1], when [p] holds a slash. *)
Fixpoint split_last_sep (p : string) : option (string * string) :=
  match p with
  | EmptyString => None
  | String c r =>
      match split_last_sep r with
      | Some (h, t) => Some (String c h, t)
      | None => if Ascii.eqb c "/"%char then Some ("/", r) else None
      end
  end.

Fixpoint all_sep (s : string) : bool :=
  match s with
  | EmptyString => true
  | String c r => Ascii.eqb c "/"%char && all_sep r
  end.

(** [s.rstrip('/')] *)
Fixpoint rstrip_sep (s : string) : string :=
  match s with
  | EmptyString => EmptyString
  | String c r =>
      match rstrip_sep r with
      | EmptyString =>
          if Ascii.eqb c "/"%char then EmptyString else String c EmptyString
      | r' => String c r'
      end
  end.

(** [os.path.split(p)] on a POSIX system: the part up to the last slash,
    without its trailing slashes unless it is slashes only, and the part
    after the last slash. *)
Definition os_path_split (p : string) : string * string :=
  match split_last_sep p with
  | None => ("", p)
  | Some (h, t) => (if all_sep h then h else rstrip_sep h, t)
  end.

(** The [head, tail] that [os.makedirs(name)] works with: the split of
    [name], or of its head when [name] ends with a slash. *)
Definition makedirs_split (name : string) : string * string :=
  let (head, tail) := os_path_split name in
  if (tail =? "")%string then os_path_split head else (head, tail).

(** ** Objects of the libraries *)

Inductive DType := float16 | float32 | float64 | int8 | uint8 | int32 | int64.

Definition DType_eqb (a b : DType) : bool :=
  match a, b with
  | float16, float16 | float32, float32 | float64, float64
  | int8, int8 | uint8, uint8 | int32, int32 | int64, int64 => true
  | _, _ => false
  end.

Record ndarray := mkArray { nd_shape : list Z; nd_data : list float }.

(** The array-valued spaces of gym, the ones whose [shape] is a tuple.  Only
    a [Box] has bounds and a free choice of dtype.  The composite spaces
    [Tuple] and [Dict], whose [shape] is [None] (so that [len] of it at
    line 199 is a [TypeError]), are not among the environments considered
    here: every statement below is about environments with an array-valued
    observation space. *)
Inductive Space :=
| Box (low high : ndarray) (dtype : DType)
| Discrete (n : Z)
| MultiDiscrete (nvec : list Z)
| MultiBinary (n : Z).

Definition space_dtype (sp : Space) : DType :=
  match sp with
  | Box _ _ dt => dt
  | Discrete _ => int64
  | MultiDiscrete _ => int64
  | MultiBinary _ => int8
  end.

Definition space_shape (sp : Space) : list Z :=
  match sp with
  | Box lo _ _ => nd_shape lo
  | Discrete _ => []
  | MultiDiscrete nvec => [Z.of_nat (length nvec)]
  | MultiBinary n => [n]
  end.

Definition space_low (sp : Space) : option ndarray :=
  match sp with
  | Box lo _ _ => Some lo
  | _ => None
  end.

Definition space_high (sp : Space) : option ndarray :=
  match sp with
  | Box _ hi _ => Some hi
  | _ => None
  end.

(** What [make_vec_env] returns. *)
Record DummyVecEnv := mkDummyVecEnv {
  env_id : string;
  n_envs : Z;
  monitor_dir : string;
  observation_space : Space
}.

(** [env.observation_space = sp] *)
Definition set_observation_space (sp : Space) (e : DummyVecEnv) : DummyVecEnv :=
  mkDummyVecEnv (env_id e) (n_envs e) (monitor_dir e) sp.

(** The variable [env] after line 136: the vectorized environment, wrapped
    in a video recorder or not.  [trigger_interval] is the value of
    [args.save_interval] that the [record_video_trigger] lambda reads. *)
Inductive VecEnv :=
| Unwrapped (venv : DummyVecEnv)
| VecVideoRecorder (venv : DummyVecEnv) (video_folder : string)
    (trigger_interval : option Z) (video_length : Z).

Definition unwrapped (e : VecEnv) : DummyVecEnv :=
  match e with
  | Unwrapped v => v
  | VecVideoRecorder v _ _ _ => v
  end.

(** Python values that end up in the keyword dictionaries. *)
Inductive Value :=
| VNone
| VBool (b : bool)
| VInt (z : Z)
| VFloat (f : float)
| VStr (s : string)
| VList (l : list Value)
| VDict (d : list (string * Value))
| VEnv (e : VecEnv)
| VClass (name : string)
| VObject (repr : string).

Definition Dict := list (string * Value).

(** [d[k]] read *)
Fixpoint dict_get (k : string) (d : Dict) : option Value :=
  match d with
  | [] => None
  | (k', v) :: r => if (k =? k')%string then Some v else dict_get k r
  end.

(** [d[k] = v]: an existing key keeps its place, a new one goes last. *)
Fixpoint dict_set (k : string) (v : Value) (d : Dict) : Dict :=
  match d with
  | [] => [(k, v)]
  | (k', v') :: r =>
      if (k =? k')%string then (k', v) :: r else (k', v') :: dict_set k v r
  end.

Definition opt_int (o : option Z) : Value :=
  match o with Some z => VInt z | None => VNone end.

Definition opt_str (o : option string) : Value :=
  match o with Some s => VStr s | None => VNone end.

Definition opt_ints (o : option (list Z)) : Value :=
  match o with Some l => VList (map VInt l) | None => VNone end.

Inductive ModelClass := CspnSAC | EntropyLoggingSAC.

(** The attributes of [model.actor.cspn.config] the script reads. *)
Record CspnConfig := mkCspnConfig {
  cfg_R : Value;
  cfg_D : Value;
  cfg_I : Value;
  cfg_S : Value;
  cfg_dropout : Value;
  cfg_sum_param_layers : Value;
  cfg_dist_param_layers : Value;
  cfg_cond_layers_inner_act : Value
}.

Record Actor := mkActor {
  is_CspnActor : bool;
  cspn_config : CspnConfig;
  vi_ent_approx_sample_size : Value
}.

(** An SB3 model as the script sees it. *)
Record Model := mkModel {
  model_env : Value;
  model_seed : Value;
  model_verbose : Value;
  model_ent_coef : Value;
  model_learning_starts : Value;
  model_device : Value;
  model_learning_rate : Value;
  model_actor : Actor
}.

(** [model.seed = v] and [model.learning_starts = v] *)
Definition set_model_seed (v : Value) (m : Model) : Model :=
  mkModel (model_env m) v (model_verbose m) (model_ent_coef m)
    (model_learning_starts m) (model_device m) (model_learning_rate m)
    (model_actor m).

Definition set_model_learning_starts (v : Value) (m : Model) : Model :=
  mkModel (model_env m) (model_seed m) (model_verbose m)
    (model_ent_coef m) v (model_device m) (model_learning_rate m)
    (model_actor m).

(** The handle returned by [wandb.init] (lines 109-119). *)
Record Run := mkRun {
  run_dir : string;
  run_project : string;
  run_display_name : string;
  run_group : string
}.

(** The object built at lines 209-214. *)
Record WandbCallback := mkWandbCallback {
  gradient_save_freq : Z;
  model_save_path : string;
  model_save_freq : option Z;
  callback_verbose : Z
}.

(** ** The world outside the script *)

(** What the libraries and the operating system answer.
    [non_existing_folder_name] is the helper of [utils.py]: it is given the
    current file system, the destination folder and the wanted name. *)
Record World := mkWorld {
  environ : string -> option string;
  platform_node : string;
  env_observation_space : string -> Space;
  non_existing_folder_name : FileSystem -> string -> string -> string;
  CspnSAC_load : string -> VecEnv -> Model;
  SAC_new : ModelClass -> Value -> Dict -> Model
}.

(** ** Events: the calls the script makes *)

Inductive Event :=
| call_wandb_login (key : string)
| call_print_seed (sd : Z)
| call_np_random_seed (sd : Z)
| call_th_manual_seed (sd : Z)
| call_os_makedirs (d : string) (exist_ok : bool)
| call_wandb_init (r : Run)
| call_make_vec_env (id : string) (n : Z) (monitor : string)
| call_gym_spaces_Box (low high : ndarray) (dtype : DType)
| call_VecVideoRecorder (venv : DummyVecEnv) (video_folder : string)
    (trigger_interval : option Z) (video_length : Z)
| call_CspnSAC_load (path : string) (env : VecEnv)
| call_SAC_new (cls : ModelClass) (policy : Value) (kwargs : Dict)
| call_run_config_update (r : Run) (d : Dict)
| call_WandbCallback (cb : WandbCallback)
| call_configure (folder : string) (format_strings : list string)
| call_set_max_length (n : Z)
| call_set_logger (folder : string)
| call_print_actor
| call_print_critic
| call_print_cspn_params
| call_print_mlp_params
| call_model_learn (model : Model) (total_timesteps : Z) (log_interval : Z)
    (reset_num_timesteps : bool) (tb_log_name : string)
    (callback : option WandbCallback)
| call_run_finish (r : Run).

(** ** The script's state and its monad *)

Inductive Exn :=
| AssertionError (msg : string)
| NameError (name : string)
| KeyError (key : string)
| TypeError (msg : string)
| AttributeError (attr : string)
| ZeroDivisionError
| FileExistsError (path : string).

Inductive Res (A : Type) :=
| Ok (a : A)
| Raise (e : Exn).

Arguments Ok {A} a.
Arguments Raise {A} e.

(** [args], [learn] and [run] are the module-level variables that outlive a
    statement; [learn] and [run] are unbound until assigned.  [fs] is the
    file system. *)
Record State := mkState {
  args : Namespace;
  learn : option bool;
  run : option Run;
  fs : FileSystem
}.

(** The state at line 73, right after [parse_args]. *)
Definition after_parse (a : Namespace) (files : FileSystem) : State :=
  mkState a None None files.

(** A statement maps a state to a result, a state and the events it
    emitted. *)
Definition M (A : Type) : Type := State -> Res A * State * list Event.

Definition ret {A} (a : A) : M A := fun st => (Ok a, st, []).

Definition bind {A B} (m : M A) (f : A -> M B) : M B :=
  fun st =>
    match m st with
    | (Ok a, st1, es1) =>
        match f a st1 with
        | (r, st2, es2) => (r, st2, (es1 ++ es2)%list)
        end
    | (Raise e, st1, es1) => (Raise e, st1, es1)
    end.

Notation "x <- c1 ;; c2" := (bind c1 (fun x => c2))
  (at level 61, c1 at next level, right associativity).
Notation "c1 ;; c2" := (bind c1 (fun _ => c2))
  (at level 61, right associativity).

Definition raise {A} (e : Exn) : M A := fun st => (Raise e, st, []).
Definition emit (e : Event) : M unit := fun st => (Ok tt, st, [e]).
Definition get_args : M Namespace := fun st => (Ok (args st), st, []).
Definition get_fs : M FileSystem := fun st => (Ok (fs st), st, []).

Definition put_args (a : Namespace) : M unit :=
  fun st => (Ok tt, mkState a (learn st) (run st) (fs st), []).

Definition put_learn (b : bool) : M unit :=
  fun st => (Ok tt, mkState (args st) (Some b) (run st) (fs st), []).

Definition put_run (r : Run) : M unit :=
  fun st => (Ok tt, mkState (args st) (learn st) (Some r) (fs st), []).

Definition put_fs (files : FileSystem) : M unit :=
  fun st => (Ok tt, mkState (args st) (learn st) (run st) files, []).

(** Reading the variable [run]: a [NameError] while it is unbound. *)
Definition get_run : M Run :=
  fun st =>
    match run st with
    | Some r => (Ok r, st, [])
    | None => (Raise (NameError "run"), st, [])
    end.

(** [assert c, msg] *)
Definition assert_ (c : bool) (msg : string) : M unit :=
  if c then ret tt else raise (AssertionError msg).

(** The integer operand of [>=] and [%]: [None] there is a [TypeError]. *)
Definition as_int (o : option Z) : M Z :=
  match o with
  | Some z => ret z
  | None => raise (TypeError "int expected, got NoneType")
  end.

(** [a % b] on integers: the remainder has the sign of [b]. *)
Definition py_mod (a b : Z) : M Z :=
  if b =? 0 then raise ZeroDivisionError else ret (a mod b).

(** Reading an attribute that only some objects have. *)
Definition getattr {A} (o : option A) (attr : string) : M A :=
  match o with
  | Some x => ret x
  | None => raise (AttributeError attr)
  end.

(** [os.environ[k]] *)
Definition environ_lookup (w : World) (k : string) : M string :=
  match environ w k with
  | Some v => ret v
  | None => raise (KeyError k)
  end.

(** [try: m  except FileExistsError: pass] *)
Definition except_FileExistsError (m : M unit) : M unit :=
  fun st =>
    match m st with
    | (Raise (FileExistsError _), st1, es1) => (Ok tt, st1, es1)
    | x => x
    end.

(** The body of [os.makedirs(name, exist_ok=exist_ok)] as CPython defines
    it: when the head of [name] is missing it is made first, by recursion
    and with its own missing parents; then [name] itself is made, where a
    directory that is already there is an error only without [exist_ok].
    [fuel] bounds the recursion; a head is shorter than its path, so the
    length of the path is enough.  The paths that exist here are
    directories.  CPython stops after the head when [name] ends in [/.]:
    then [name] is the directory just made, and in this file system of
    spellings it is recorded all the same. *)
Fixpoint makedirs (fuel : nat) (name : string) (exist_ok : bool) : M unit :=
  files <- get_fs ;;
  (if negb (fst (makedirs_split name) =? "")%string
      && negb (snd (makedirs_split name) =? "")%string
      && negb (os_path_exists files (fst (makedirs_split name)))
   then
     match fuel with
     | S fuel' =>
         except_FileExistsError
           (makedirs fuel' (fst (makedirs_split name)) exist_ok)
     | O => ret tt
     end
   else ret tt) ;;
  files <- get_fs ;;
  if os_path_exists files name then
    if exist_ok then ret tt else raise (FileExistsError name)
  else put_fs (files ++ [name])%list.

(** [os.makedirs(d, exist_ok=exist_ok)] *)
Definition os_makedirs (d : string) (exist_ok : bool) : M unit :=
  emit (call_os_makedirs d exist_ok) ;;
  makedirs (String.length d) d exist_ok.

(** [for x in xs: body(x)] *)
Fixpoint for_each {A} (xs : list A) (body : A -> M unit) : M unit :=
  match xs with
  | [] => ret tt
  | x :: r => body x ;; for_each r body
  end.

(** ** The script *)

(** Lines 74-75. *)
Definition default_save_interval : M unit :=
  a <- get_args ;;
  if negb (truthy_int (save_interval a))
  then put_args (set_save_interval (Some (timesteps a)) a)
  else ret tt.

(** Lines 77-82. *)
Definition check_timesteps : M unit :=
  a <- get_args ;;
  if timesteps a =? 0 then put_learn false
  else
    put_learn true ;;
    si <- as_int (save_interval a) ;;
    assert_ (timesteps a >=? si)
      "Total timesteps cannot be lower than save_interval!" ;;
    r <- py_mod (timesteps a) si ;;
    assert_ (r =? 0) "save_interval must be a divisor of total timesteps.".

(** Lines 84-87. *)
Definition check_paths : M unit :=
  a <- get_args ;;
  files <- get_fs ;;
  match model_path a with
  | Some p =>
      if negb (p =? "")%string
      then assert_ (os_path_exists files p)
             ("The model_path doesn't exist! " ++ p)
      else ret tt
  | None => ret tt
  end ;;
  if negb (log_dir a =? "")%string
  then assert_ (os_path_exists files (log_dir a))
         ("The log_dir doesn't exist! " ++ log_dir a)
  else ret tt.

(** Lines 89-92. *)
Definition wandb_setup (w : World) : M unit :=
  a <- get_args ;;
  if negb (no_wandb a) then
    key <- environ_lookup w "WANDB_API_KEY" ;;
    emit (call_wandb_login key)
  else ret tt.

(** The local path variables of lines 99-104. *)
Definition run_name_seed_of (a : Namespace) (sd : Z) : string :=
  run_name a ++ "_s" ++ str_of_int sd.

Definition log_path_of (w : World) (a : Namespace) (files : FileSystem)
    (sd : Z) : string :=
  let log_path := os_path_join (log_dir a) (proj_name a) in
  os_path_join log_path
    (non_existing_folder_name w files log_path (run_name_seed_of a sd)).

Definition monitor_path_of (log_path : string) : string :=
  os_path_join log_path "monitor".
Definition models_path_of (log_path : string) : string :=
  os_path_join log_path "models".
Definition video_path_of (log_path : string) : string :=
  os_path_join log_path "video".

(** Lines 95-106; the result is [log_path].  The two seeding calls are
    recorded with the seed they get and taken to return; [np.random.seed]
    does so for the seeds of [numpy_accepts] below, and raises a
    [ValueError] for any other integer. *)
Definition make_run_dirs (w : World) (sd : Z) : M string :=
  a <- get_args ;;
  emit (call_print_seed sd) ;;
  emit (call_np_random_seed sd) ;;
  emit (call_th_manual_seed sd) ;;
  files <- get_fs ;;
  let log_path := log_path_of w a files sd in
  for_each
    [log_path; monitor_path_of log_path; models_path_of log_path;
     video_path_of log_path]
    (fun d => os_makedirs d true) ;;
  ret log_path.

(** Lines 108-119. *)
Definition init_tracking (sd : Z) (log_path : string) : M unit :=
  a <- get_args ;;
  if negb (no_wandb a) then
    let r := mkRun log_path (proj_name a) (run_name_seed_of a sd) (run_name a) in
    emit (call_wandb_init r) ;;
    put_run r
  else ret tt.

(** Lines 121-136; the result is [env]. *)
Definition build_env (w : World) (log_path : string) : M VecEnv :=
  a <- get_args ;;
  emit (call_make_vec_env (env_name a) (num_envs a) (monitor_path_of log_path)) ;;
  let env :=
    mkDummyVecEnv (env_name a) (num_envs a) (monitor_path_of log_path)
      (env_observation_space w (env_name a)) in
  env <-
    (if DType_eqb (space_dtype (observation_space env)) float64 then
       lo <- getattr (space_low (observation_space env)) "low" ;;
       hi <- getattr (space_high (observation_space env)) "high" ;;
       emit (call_gym_spaces_Box lo hi float32) ;;
       ret (set_observation_space (Box lo hi float32) env)
     else ret env) ;;
  if negb (no_video a) then
    emit (call_VecVideoRecorder env (video_path_of log_path)
            (save_interval a) 200) ;;
    ret (VecVideoRecorder env (video_path_of log_path) (save_interval a) 200)
  else ret (Unwrapped env).

(** Lines 146-167: the dictionary literal of the loading branch. *)
Definition loaded_sac_kwargs (model : Model) : Dict :=
  let config := cspn_config (model_actor model) in
  [("env", model_env model);
   ("seed", model_seed model);
   ("verbose", model_verbose model);
   ("ent_coef", model_ent_coef model);
   ("learning_starts", model_learning_starts model);
   ("device", model_device model);
   ("learning_rate", model_learning_rate model);
   ("policy_kwargs",
    VDict
      [("cspn_args",
        VDict
          [("R", cfg_R config);
           ("D", cfg_D config);
           ("I", cfg_I config);
           ("S", cfg_S config);
           ("dropout", cfg_dropout config);
           ("sum_param_layers", cfg_sum_param_layers config);
           ("dist_param_layers", cfg_dist_param_layers config);
           ("cond_layers_inner_act", cfg_cond_layers_inner_act config);
           ("vi_ent_approx_sample_size",
            vi_ent_approx_sample_size (model_actor model))])])].

(** Lines 139-167: the branch that loads a checkpoint; the result is
    [(model, sac_kwargs)]. *)
Definition load_branch (w : World) (sd : Z) (env : VecEnv) (p : string)
    : M (Model * Dict) :=
  a <- get_args ;;
  emit (call_CspnSAC_load p env) ;;
  let model := CspnSAC_load w p env in
  let model := set_model_seed (VInt sd) model in
  let model := set_model_learning_starts (VInt (learning_starts a)) model in
  ret (model, loaded_sac_kwargs model).

(** Lines 182-195. *)
Definition cspn_args_of (a : Namespace) : Dict :=
  [("R", VInt (repetitions a));
   ("D", opt_int (cspn_depth a));
   ("I", VInt (num_dist a));
   ("S", VInt (num_sums a));
   ("dropout", VFloat (dropout a));
   ("feat_layers", opt_ints (feat_layers a));
   ("sum_param_layers", opt_ints (sum_param_layers a));
   ("dist_param_layers", opt_ints (dist_param_layers a));
   ("cond_layers_inner_act",
    if no_relu a then VClass "nn.Identity" else VClass "nn.ReLU");
   ("entropy_objective", opt_str (objective a));
   ("recurs_ent_approx_sample_size", VInt (recurs_sample_size a));
   ("naive_ent_approx_sample_size", VInt (naive_sample_size a))].

(** Lines 169-178: the dictionary literal of the other branch. *)
Definition new_sac_kwargs (a : Namespace) (sd : Z) (env : VecEnv) : Dict :=
  [("env", VEnv env);
   ("seed", VInt sd);
   ("verbose", VInt 2);
   ("ent_coef", VFloat (ent_coef a));
   ("learning_starts", VInt (learning_starts a));
   ("device", VStr (device a));
   ("learning_rate", VFloat (learning_rate a));
   ("buffer_size", VInt (buffer_size a))].

(** Lines 196-200. *)
Definition policy_kwargs_of (a : Namespace) (env : VecEnv) : Dict :=
  [("joint_failure_prob", VFloat (joint_fail_prob a));
   ("actor_cspn_args", VDict (cspn_args_of a));
   ("features_extractor_class",
    if (1 <? length (space_shape (observation_space (unwrapped env))))%nat
    then VClass "NatureCNN" else VClass "FlattenExtractor")].

(** Lines 169-201: the branch that builds a new model.  Both constructor
    calls unpack [sac_kwargs] into keywords; the policy comes beside it, as
    the positional argument ["MlpPolicy"] at line 180 and as the keyword
    [policy=CspnPolicy] at line 201.  The event keeps the two apart: [policy]
    is the policy, [kwargs] is the unpacked [sac_kwargs]. *)
Definition new_branch (w : World) (sd : Z) (env : VecEnv) : M (Model * Dict) :=
  a <- get_args ;;
  let sac_kwargs := new_sac_kwargs a sd env in
  if mlp_actor a then
    emit (call_SAC_new EntropyLoggingSAC (VStr "MlpPolicy") sac_kwargs) ;;
    ret (SAC_new w EntropyLoggingSAC (VStr "MlpPolicy") sac_kwargs, sac_kwargs)
  else
    let sac_kwargs :=
      dict_set "policy_kwargs" (VDict (policy_kwargs_of a env)) sac_kwargs in
    emit (call_SAC_new CspnSAC (VClass "CspnPolicy") sac_kwargs) ;;
    ret (SAC_new w CspnSAC (VClass "CspnPolicy") sac_kwargs, sac_kwargs).

(** Lines 138-202. *)
Definition build_model (w : World) (sd : Z) (env : VecEnv) : M (Model * Dict) :=
  a <- get_args ;;
  match model_path a with
  | Some p =>
      if negb (p =? "")%string then load_branch w sd env p
      else new_branch w sd env
  | None => new_branch w sd env
  end.

(** Lines 204-216; the result is [callback]. *)
Definition make_callback (w : World) (log_path : string) (sac_kwargs : Dict)
    : M (option WandbCallback) :=
  a <- get_args ;;
  if negb (no_wandb a) then
    r <- get_run ;;
    emit (call_run_config_update r
            (dict_set "machine" (VStr (platform_node w)) sac_kwargs)) ;;
    let cb := mkWandbCallback 10000 (models_path_of log_path) (save_interval a) 2 in
    emit (call_WandbCallback cb) ;;
    ret (Some cb)
  else ret None.

(** Lines 218-227. *)
Definition setup_logger (log_path : string) (model : Model) : M unit :=
  emit (call_configure log_path ["stdout"; "csv"; "tensorboard"]) ;;
  emit (call_set_max_length 50) ;;
  emit (call_set_logger log_path) ;;
  emit call_print_actor ;;
  emit call_print_critic ;;
  if is_CspnActor (model_actor model) then emit call_print_cspn_params
  else emit call_print_mlp_params.

(** Lines 230-236. *)
Definition train (sd : Z) (model : Model) (callback : option WandbCallback)
    : M unit :=
  a <- get_args ;;
  emit (call_model_learn model (timesteps a) (log_interval a)
          (negb (truthy_str (model_path a)))
          (proj_name a ++ "/" ++ run_name_seed_of a sd) callback).

(** Line 237. *)
Definition finish : M unit :=
  r <- get_run ;;
  emit (call_run_finish r).

(** The body of the loop over the seeds, lines 95-237. *)
Definition run_seed (w : World) (sd : Z) : M unit :=
  log_path <- make_run_dirs w sd ;;
  init_tracking sd log_path ;;
  env <- build_env w log_path ;;
  ms <- build_model w sd env ;;
  callback <- make_callback w log_path (snd ms) ;;
  setup_logger log_path (fst ms) ;;
  train sd (fst ms) callback ;;
  finish.

(** The whole script from line 74 on. *)
Definition main (w : World) : M unit :=
  default_save_interval ;;
  check_timesteps ;;
  check_paths ;;
  wandb_setup w ;;
  a <- get_args ;;
  for_each (seed a) (run_seed w).

(** Running the script on a parsed command line. *)
Definition run_script (w : World) (a : Namespace) (files : FileSystem)
    : Res unit * State * list Event :=
  main w (after_parse a files).

Definition outcome {A} (x : Res A * State * list Event) : Res A := fst (fst x).
Definition final_state {A} (x : Res A * State * list Event) : State := snd (fst x).
Definition events {A} (x : Res A * State * list Event) : list Event := snd x.

(** The result [x] of a continuation, after a first part that emitted [es]. *)
Definition prepend {A} (es : list Event) (x : Res A * State * list Event)
    : Res A * State * list Event :=
  (outcome x, final_state x, (es ++ events x)%list).

(** ** Reading event lists *)

Definition is_makedirs (e : Event) : bool :=
  match e with call_os_makedirs _ _ => true | _ => false end.

Definition is_learn (e : Event) : bool :=
  match e with call_model_learn _ _ _ _ _ _ => true | _ => false end.

Definition is_finish (e : Event) : bool :=
  match e with call_run_finish _ => true | _ => false end.

Definition is_SAC_new (e : Event) : bool :=
  match e with call_SAC_new _ _ _ => true | _ => false end.

Definition is_load (e : Event) : bool :=
  match e with call_CspnSAC_load _ _ => true | _ => false end.

(** The dictionary [sac_kwargs] a model constructor is called with ([policy]
    is handed over beside it); the loader is called with two positional
    arguments and no keyword. *)
Definition handed_kwargs (e : Event) : option Dict :=
  match e with
  | call_SAC_new _ _ kwargs => Some kwargs
  | call_CspnSAC_load _ _ => Some []
  | _ => None
  end.

(** The observation space of the environment an event hands over, for the
    events that hand one over. *)
Definition handed_observation_space (e : Event) : option Space :=
  match e with
  | call_VecVideoRecorder venv _ _ _ => Some (observation_space venv)
  | call_CspnSAC_load _ env => Some (observation_space (unwrapped env))
  | call_SAC_new _ _ kwargs =>
      match dict_get "env" kwargs with
      | Some (VEnv env) => Some (observation_space (unwrapped env))
      | _ => None
      end
  | _ => None
  end.

(** [x] occurs in [l] and [y] occurs later. *)
Definition precedes {A} (x y : A) (l : list A) : Prop :=
  exists l1 l2 l3, l = (l1 ++ x :: l2 ++ y :: l3)%list.

(** ** Closed forms of the blocks

    What each block of the script computes, written without the monad; the
    lemmas of the next part prove them equal to the blocks. *)

Definition with_args (a : Namespace) (st : State) : State :=
  mkState a (learn st) (run st) (fs st).
Definition with_learn (l : option bool) (st : State) : State :=
  mkState (args st) l (run st) (fs st).
Definition with_run (r : option Run) (st : State) : State :=
  mkState (args st) (learn st) r (fs st).
Definition with_fs (files : FileSystem) (st : State) : State :=
  mkState (args st) (learn st) (run st) files.

(** [args] after line 75. *)
Definition defaulted (a : Namespace) : Namespace :=
  set_save_interval
    (if truthy_int (save_interval a) then save_interval a
     else Some (timesteps a)) a.

(** The integer [args.save_interval] holds after line 75. *)
Definition effective_save_interval (a : Namespace) : Z :=
  match save_interval a with
  | Some z => if z =? 0 then timesteps a else z
  | None => timesteps a
  end.

Definition mkdir_leaf (files : FileSystem) (d : string) : FileSystem :=
  if os_path_exists files d then files else (files ++ [d])%list.

(** The file system after [makedirs fuel name true]. *)
Fixpoint makedirs_fs (fuel : nat) (files : FileSystem) (name : string)
    : FileSystem :=
  mkdir_leaf
    (if negb (fst (makedirs_split name) =? "")%string
        && negb (snd (makedirs_split name) =? "")%string
        && negb (os_path_exists files (fst (makedirs_split name)))
     then
       match fuel with
       | S fuel' => makedirs_fs fuel' files (fst (makedirs_split name))
       | O => files
       end
     else files)
    name.

(** The file system after [os.makedirs(d, exist_ok=True)]. *)
Definition mkdir (files : FileSystem) (d : string) : FileSystem :=
  makedirs_fs (String.length d) files d.

Definition run_dirs (log_path : string) : list string :=
  [log_path; monitor_path_of log_path; models_path_of log_path;
   video_path_of log_path].

Definition made_dirs (log_path : string) (files : FileSystem) : FileSystem :=
  fold_left mkdir (run_dirs log_path) files.

Definition dirs_events (sd : Z) (log_path : string) : list Event :=
  [call_print_seed sd; call_np_random_seed sd; call_th_manual_seed sd;
   call_os_makedirs log_path true;
   call_os_makedirs (monitor_path_of log_path) true;
   call_os_makedirs (models_path_of log_path) true;
   call_os_makedirs (video_path_of log_path) true].

Definition tracking_run (a : Namespace) (sd : Z) (log_path : string) : Run :=
  mkRun log_path (proj_name a) (run_name_seed_of a sd) (run_name a).

Definition tracking_events (a : Namespace) (sd : Z) (log_path : string)
    : list Event :=
  if no_wandb a then [] else [call_wandb_init (tracking_run a sd log_path)].

Definition coerced_space (sp : Space) : Space :=
  match sp with
  | Box lo hi float64 => Box lo hi float32
  | _ => sp
  end.

Definition coerced_env (w : World) (a : Namespace) (log_path : string)
    : DummyVecEnv :=
  mkDummyVecEnv (env_name a) (num_envs a) (monitor_path_of log_path)
    (coerced_space (env_observation_space w (env_name a))).

Definition built_env (w : World) (a : Namespace) (log_path : string) : VecEnv :=
  if no_video a then Unwrapped (coerced_env w a log_path)
  else VecVideoRecorder (coerced_env w a log_path) (video_path_of log_path)
         (save_interval a) 200.

Definition env_events (w : World) (a : Namespace) (log_path : string)
    : list Event :=
  (call_make_vec_env (env_name a) (num_envs a) (monitor_path_of log_path)
   :: match env_observation_space w (env_name a) with
      | Box lo hi float64 => [call_gym_spaces_Box lo hi float32]
      | _ => []
      end
   ++ (if no_video a then []
       else [call_VecVideoRecorder (coerced_env w a log_path)
               (video_path_of log_path) (save_interval a) 200]))%list.

Definition loaded_model (w : World) (a : Namespace) (sd : Z) (env : VecEnv)
    (p : string) : Model :=
  set_model_learning_starts (VInt (learning_starts a))
    (set_model_seed (VInt sd) (CspnSAC_load w p env)).

Definition cspn_sac_kwargs (a : Namespace) (sd : Z) (env : VecEnv) : Dict :=
  dict_set "policy_kwargs" (VDict (policy_kwargs_of a env))
    (new_sac_kwargs a sd env).

Definition new_model (w : World) (a : Namespace) (sd : Z) (env : VecEnv)
    : Model * Dict :=
  if mlp_actor a then
    (SAC_new w EntropyLoggingSAC (VStr "MlpPolicy") (new_sac_kwargs a sd env),
     new_sac_kwargs a sd env)
  else
    (SAC_new w CspnSAC (VClass "CspnPolicy") (cspn_sac_kwargs a sd env),
     cspn_sac_kwargs a sd env).

Definition new_model_events (a : Namespace) (sd : Z) (env : VecEnv)
    : list Event :=
  if mlp_actor a then
    [call_SAC_new EntropyLoggingSAC (VStr "MlpPolicy") (new_sac_kwargs a sd env)]
  else [call_SAC_new CspnSAC (VClass "CspnPolicy") (cspn_sac_kwargs a sd env)].

Definition built_model (w : World) (a : Namespace) (sd : Z) (env : VecEnv)
    : Model * Dict :=
  match model_path a with
  | Some p =>
      if negb (p =? "")%string
      then (loaded_model w a sd env p,
            loaded_sac_kwargs (loaded_model w a sd env p))
      else new_model w a sd env
  | None => new_model w a sd env
  end.

Definition model_events (a : Namespace) (sd : Z) (env : VecEnv) : list Event :=
  match model_path a with
  | Some p =>
      if negb (p =? "")%string then [call_CspnSAC_load p env]
      else new_model_events a sd env
  | None => new_model_events a sd env
  end.

Definition built_callback (a : Namespace) (log_path : string)
    : option WandbCallback :=
  if no_wandb a then None
  else Some (mkWandbCallback 10000 (models_path_of log_path) (save_interval a) 2).

Definition callback_events (w : World) (a : Namespace) (sd : Z)
    (log_path : string) (sac_kwargs : Dict) : list Event :=
  if no_wandb a then []
  else
    [call_run_config_update (tracking_run a sd log_path)
       (dict_set "machine" (VStr (platform_node w)) sac_kwargs);
     call_WandbCallback
       (mkWandbCallback 10000 (models_path_of log_path) (save_interval a) 2)].

Definition logger_events (log_path : string) (model : Model) : list Event :=
  [call_configure log_path ["stdout"; "csv"; "tensorboard"];
   call_set_max_length 50;
   call_set_logger log_path;
   call_print_actor;
   call_print_critic;
   if is_CspnActor (model_actor model) then call_print_cspn_params
   else call_print_mlp_params].

Definition learn_event (a : Namespace) (sd : Z) (log_path : string)
    (model : Model) : Event :=
  call_model_learn model (timesteps a) (log_interval a)
    (negb (truthy_str (model_path a)))
    (proj_name a ++ "/" ++ run_name_seed_of a sd)
    (built_callback a log_path).

(** The events of one iteration up to and including the call of
    [model.learn], for the run directory [log_path]. *)
Definition seed_events (w : World) (a : Namespace) (sd : Z) (log_path : string)
    : list Event :=
  let env := built_env w a log_path in
  let ms := built_model w a sd env in
  (dirs_events sd log_path
   ++ tracking_events a sd log_path
   ++ env_events w a log_path
   ++ model_events a sd env
   ++ callback_events w a sd log_path (snd ms)
   ++ logger_events log_path (fst ms)
   ++ [learn_event a sd log_path (fst ms)])%list.

(** The conditions of lines 77-87 as booleans. *)
Definition timesteps_ok (a : Namespace) : bool :=
  (timesteps a =? 0)
  || ((timesteps a >=? effective_save_interval a)
      && (timesteps a mod effective_save_interval a =? 0)).

Definition timesteps_msg (a : Namespace) : string :=
  if timesteps a >=? effective_save_interval a
  then "save_interval must be a divisor of total timesteps."
  else "Total timesteps cannot be lower than save_interval!".

Definition model_path_ok (files : FileSystem) (a : Namespace) : bool :=
  match model_path a with
  | Some p => (p =? "")%string || os_path_exists files p
  | None => true
  end.

Definition model_path_msg (a : Namespace) : string :=
  match model_path a with
  | Some p => "The model_path doesn't exist! " ++ p
  | None => ""
  end.

Definition log_dir_ok (files : FileSystem) (a : Namespace) : bool :=
  (log_dir a =? "")%string || os_path_exists files (log_dir a).

(** The state when the checks of lines 74-87 are over. *)
Definition checked_state (a : Namespace) (files : FileSystem) : State :=
  mkState (defaulted a) (Some (negb (timesteps a =? 0))) None files.

(** The state one iteration leaves behind. *)
Definition seed_state (w : World) (sd : Z) (st : State) : State :=
  let log_path := log_path_of w (args st) (fs st) sd in
  let st1 := with_fs (made_dirs log_path (fs st)) st in
  if no_wandb (args st) then st1
  else with_run (Some (tracking_run (args st) sd log_path)) st1.

(** A block does not read the variable [learn]: whatever [learn] holds, the
    block ends the same way, with the same events, and leaves [learn] as it
    found it. *)
Definition ignores_learn {A} (m : M A) : Prop :=
  forall l st,
    m (with_learn l st)
    = (outcome (m st), with_learn l (final_state (m st)), events (m st)).

(** The [total_timesteps] of a call of [model.learn]. *)
Definition total_timesteps_of (e : Event) : option Z :=
  match e with
  | call_model_learn _ total _ _ _ _ => Some total
  | _ => None
  end.

Definition is_config_update (e : Event) : bool :=
  match e with call_run_config_update _ _ => true | _ => false end.

(** The entry [ent_coef] of the dictionary logged by [run.config.update],
    which is [sac_kwargs] plus the machine name. *)
Definition logged_ent_coef (e : Event) : option Value :=
  match e with
  | call_run_config_update _ d => dict_get "ent_coef" d
  | _ => None
  end.

(** ** A sample world, for running the script on concrete command lines *)

Definition sample_array : ndarray :=
  mkArray [3] [float_0_1; float_0_1; float_0_5].

Definition sample_actor : Actor :=
  mkActor true
    (mkCspnConfig (VInt 3) (VInt 2) (VInt 3) (VInt 3) (VFloat float_0_0)
       VNone VNone (VClass "nn.ReLU"))
    (VInt 5).

(** One helper that fits the name [non_existing_folder_name]: the wanted
    name followed by the first counter that is free in the destination. *)
Fixpoint first_free (files : FileSystem) (dest name : string) (fuel : nat)
    (i : Z) : string :=
  match fuel with
  | O => name ++ str_of_int i
  | S fuel' =>
      if os_path_exists files (os_path_join dest (name ++ str_of_int i))
      then first_free files dest name fuel' (i + 1)
      else name ++ str_of_int i
  end.

(** The checkpoint of the sample world was trained with entropy
    coefficient 0.1 on the cpu. *)
Definition sample_world : World :=
  {| environ :=
       fun k => if (k =? "WANDB_API_KEY")%string then Some "secret" else None;
     platform_node := "host";
     env_observation_space := fun _ => Box sample_array sample_array float64;
     non_existing_folder_name :=
       fun files dest name => first_free files dest name (length files) 0;
     CspnSAC_load :=
       fun _ e =>
         mkModel (VEnv e) VNone (VInt 0) (VFloat float_0_1) (VInt 100)
           (VObject "cpu") (VFloat float_3e_4) sample_actor;
     SAC_new :=
       fun c _ k =>
         mkModel VNone VNone VNone VNone VNone VNone VNone
           (mkActor (match c with CspnSAC => true | EntropyLoggingSAC => false end)
              (cspn_config sample_actor) VNone) |}.

Definition sample_files : FileSystem :=
  ["../../cspn_rl_experiments"; "checkpoint.zip"].

(** [--seed 1 2 --env_name Pendulum-v1] *)
Definition sample_args : Namespace := parse_defaults [1; 2] "Pendulum-v1".

Definition sample_state : State := after_parse (defaulted sample_args) sample_files.

(** ** The video trigger and further readers of events *)

(** The [record_video_trigger] of line 135,
    [lambda x: x % args.save_interval == 0].  The lambda closes over the
    variable [args], so it reads [args.save_interval] when the recorder calls
    it with a step count [x]. *)
Definition record_video_trigger (x : Z) : M bool :=
  a <- get_args ;;
  si <- as_int (save_interval a) ;;
  r <- py_mod x si ;;
  ret (r =? 0).

(** The elements of [l] that [f] maps to something, mapped. *)
Fixpoint pick {B} (f : Event -> option B) (l : list Event) : list B :=
  match l with
  | [] => []
  | e :: r =>
      match f e with
      | Some b => b :: pick f r
      | None => pick f r
      end
  end.

Definition is_tracking_call (e : Event) : bool :=
  match e with
  | call_wandb_login _ | call_wandb_init _ | call_run_config_update _ _
  | call_WandbCallback _ | call_run_finish _ => true
  | _ => false
  end.

Definition is_login (e : Event) : bool :=
  match e with call_wandb_login _ => true | _ => false end.

(** The callback handed to [model.learn]. *)
Definition learn_callback (e : Event) : option (option WandbCallback) :=
  match e with
  | call_model_learn _ _ _ _ _ cb => Some cb
  | _ => None
  end.

(** The directory an event hands to a library that writes into it. *)
Definition handed_dir (e : Event) : option string :=
  match e with
  | call_wandb_init r => Some (run_dir r)
  | call_make_vec_env _ _ monitor => Some monitor
  | call_VecVideoRecorder _ folder _ _ => Some folder
  | call_WandbCallback cb => Some (model_save_path cb)
  | call_configure folder _ => Some folder
  | _ => None
  end.

(** The directory handed to [os.makedirs]. *)
Definition made_dir (e : Event) : option string :=
  match e with call_os_makedirs d _ => Some d | _ => None end.

(** ** The loop as a whole *)

(** Lines 74-92: the statements before the loop. *)
Definition before_loop (w : World) : M unit :=
  default_save_interval ;;
  check_timesteps ;;
  check_paths ;;
  wandb_setup w.

(** The seeds [np.random.seed] takes (line 96): the integers from 0 to
    2^32 - 1. *)
Definition numpy_accepts (sd : Z) : Prop := 0 <= sd < 2 ^ 32.

(** The run directories of the iterations for [seeds], one after the other,
    when the loop starts in [st] and every iteration comes to its end: the
    helper is asked in the state the iterations before have left. *)
Fixpoint loop_log_paths (w : World) (seeds : list Z) (st : State)
    : list string :=
  match seeds with
  | [] => []
  | sd :: rest =>
      log_path_of w (args st) (fs st) sd
      :: loop_log_paths w rest (seed_state w sd st)
  end.









(** * Properties *)

(** ** The monad *)

Lemma bind_Ok {A B} (m : M A) (f : A -> M B) st a st1 es1 :
  m st = (Ok a, st1, es1) ->
  bind m f st = prepend es1 (f a st1).
Proof.
  intros H. unfold bind, prepend, outcome, final_state, events. rewrite H.
  destruct (f a st1) as [[r st2] es2]. reflexivity.
Qed.

Lemma prepend_nil {A} (x : Res A * State * list Event) : prepend [] x = x.
Proof. destruct x as [[r st] es]. reflexivity. Qed.

Lemma bind_Raise {A B} (m : M A) (f : A -> M B) st e st1 es1 :
  m st = (Raise e, st1, es1) -> bind m f st = (Raise e, st1, es1).
Proof. intros H. unfold bind. rewrite H. reflexivity. Qed.

Lemma outcome_triple {A} (r : Res A) st es : outcome (r, st, es) = r.
Proof. reflexivity. Qed.

Lemma events_triple {A} (r : Res A) st es : events (r, st, es) = es.
Proof. reflexivity. Qed.

Lemma with_fs_same st : with_fs (fs st) st = st.
Proof. destruct st; reflexivity. Qed.

Lemma set_save_interval_same a : set_save_interval (save_interval a) a = a.
Proof. destruct a; reflexivity. Qed.

(** ** The blocks of the loop body *)

Lemma makedirs_exist_ok fuel name st :
  makedirs fuel name true st
  = (Ok tt, with_fs (makedirs_fs fuel (fs st) name) st, []).
Proof.
  revert name st. induction fuel as [|fuel IH]; intros name st.
  - simpl. unfold bind, get_fs, ret, put_fs, with_fs, mkdir_leaf.
    destruct (negb (fst (makedirs_split name) =? "")%string
              && negb (snd (makedirs_split name) =? "")%string
              && negb (os_path_exists (fs st) (fst (makedirs_split name))));
      simpl; destruct (os_path_exists (fs st) name); simpl;
      try (destruct st; reflexivity); reflexivity.
  - simpl. unfold bind at 1. unfold get_fs at 1.
    destruct (negb (fst (makedirs_split name) =? "")%string
              && negb (snd (makedirs_split name) =? "")%string
              && negb (os_path_exists (fs st) (fst (makedirs_split name)))).
    + unfold bind at 1. unfold except_FileExistsError. rewrite IH.
      unfold bind, get_fs, ret, put_fs, with_fs, mkdir_leaf. cbn [fs args learn run].
      destruct (os_path_exists
                  (makedirs_fs fuel (fs st) (fst (makedirs_split name))) name);
        reflexivity.
    + unfold bind, get_fs, ret, put_fs, with_fs, mkdir_leaf.
      destruct (os_path_exists (fs st) name); simpl;
        try (destruct st; reflexivity); reflexivity.
Qed.

Lemma os_makedirs_exist_ok d st :
  os_makedirs d true st
  = (Ok tt, with_fs (mkdir (fs st) d) st, [call_os_makedirs d true]).
Proof.
  unfold os_makedirs, mkdir.
  rewrite (bind_Ok (emit (call_os_makedirs d true)) _ st tt st
             [call_os_makedirs d true] eq_refl).
  rewrite makedirs_exist_ok. reflexivity.
Qed.

Lemma for_each_makedirs ds st :
  for_each ds (fun d => os_makedirs d true) st
  = (Ok tt, with_fs (fold_left mkdir ds (fs st)) st,
     map (fun d => call_os_makedirs d true) ds).
Proof.
  revert st. induction ds as [|d ds IH]; intros st; simpl.
  - rewrite with_fs_same. reflexivity.
  - rewrite (bind_Ok _ _ _ _ _ _ (os_makedirs_exist_ok d st)).
    rewrite IH. reflexivity.
Qed.

Lemma make_run_dirs_eq w sd st :
  make_run_dirs w sd st
  = (Ok (log_path_of w (args st) (fs st) sd),
     with_fs (made_dirs (log_path_of w (args st) (fs st) sd) (fs st)) st,
     dirs_events sd (log_path_of w (args st) (fs st) sd)).
Proof.
  unfold make_run_dirs.
  unfold bind at 1. unfold get_args at 1.
  unfold bind at 1. unfold emit at 1.
  unfold bind at 1. unfold emit at 1.
  unfold bind at 1. unfold emit at 1.
  unfold bind at 1. unfold get_fs at 1.
  unfold bind at 1. rewrite for_each_makedirs.
  unfold ret. reflexivity.
Qed.

Lemma init_tracking_eq sd log_path st :
  init_tracking sd log_path st
  = (Ok tt,
     (if no_wandb (args st) then st
      else with_run (Some (tracking_run (args st) sd log_path)) st),
     tracking_events (args st) sd log_path).
Proof.
  unfold init_tracking, tracking_events, bind, get_args, emit, put_run, ret,
    with_run, tracking_run.
  destruct (no_wandb (args st)); reflexivity.
Qed.

(** A space of dtype float64 is a [Box], so reading its bounds succeeds. *)
Lemma float64_is_Box sp :
  space_dtype sp = float64 -> exists lo hi, sp = Box lo hi float64.
Proof.
  destruct sp as [lo hi dt| | |]; simpl; intros H; try discriminate.
  subst dt. exists lo, hi. reflexivity.
Qed.

Lemma DType_eqb_eq a b : DType_eqb a b = true <-> a = b.
Proof. destruct a, b; simpl; split; intros H; congruence. Qed.

Lemma build_env_eq w log_path st :
  build_env w log_path st
  = (Ok (built_env w (args st) log_path), st, env_events w (args st) log_path).
Proof.
  unfold build_env, built_env, env_events, coerced_env, coerced_space.
  unfold bind, get_args, emit, getattr, ret. simpl.
  destruct (env_observation_space w (env_name (args st))) as [lo hi dt| | |];
    simpl; [destruct dt; simpl|..];
    destruct (no_video (args st)); reflexivity.
Qed.

Lemma build_model_eq w sd env st :
  build_model w sd env st
  = (Ok (built_model w (args st) sd env), st, model_events (args st) sd env).
Proof.
  unfold build_model, built_model, model_events, new_model, new_model_events,
    load_branch, new_branch, loaded_model, cspn_sac_kwargs.
  unfold bind, get_args, emit, ret. simpl.
  destruct (model_path (args st)) as [p|]; simpl.
  - destruct (p =? "")%string; simpl;
      [destruct (mlp_actor (args st))|]; reflexivity.
  - destruct (mlp_actor (args st)); reflexivity.
Qed.

Lemma make_callback_eq w sd log_path kw st :
  (no_wandb (args st) = false ->
   run st = Some (tracking_run (args st) sd log_path)) ->
  make_callback w log_path kw st
  = (Ok (built_callback (args st) log_path), st,
     callback_events w (args st) sd log_path kw).
Proof.
  intros Hrun.
  unfold make_callback, built_callback, callback_events.
  unfold bind at 1. unfold get_args at 1.
  destruct (no_wandb (args st)) eqn:E; [reflexivity|].
  unfold negb, bind, get_run. rewrite (Hrun eq_refl). reflexivity.
Qed.

Lemma setup_logger_eq log_path model st :
  setup_logger log_path model st = (Ok tt, st, logger_events log_path model).
Proof.
  unfold setup_logger, logger_events, bind, emit. simpl.
  destruct (is_CspnActor (model_actor model)); reflexivity.
Qed.

Lemma train_eq sd log_path model st :
  train sd model (built_callback (args st) log_path) st
  = (Ok tt, st, [learn_event (args st) sd log_path model]).
Proof. reflexivity. Qed.

Lemma finish_eq st :
  finish st
  = match run st with
    | Some r => (Ok tt, st, [call_run_finish r])
    | None => (Raise (NameError "run"), st, [])
    end.
Proof.
  unfold finish, bind, get_run, emit. destruct (run st); reflexivity.
Qed.

(** The loop body in closed form: the events of [seed_events], then either
    the call of [run.finish] or, while [run] is unbound, a [NameError]. *)
Lemma run_seed_eq w sd st :
  run_seed w sd st
  = match run (seed_state w sd st) with
    | Some r =>
        (Ok tt, seed_state w sd st,
         (seed_events w (args st) sd (log_path_of w (args st) (fs st) sd)
          ++ [call_run_finish r])%list)
    | None =>
        (Raise (NameError "run"), seed_state w sd st,
         seed_events w (args st) sd (log_path_of w (args st) (fs st) sd))
    end.
Proof.
  unfold run_seed, seed_state, seed_events.
  set (lp := log_path_of w (args st) (fs st) sd).
  rewrite (bind_Ok _ _ _ _ _ _ (make_run_dirs_eq w sd st)). fold lp.
  set (st1 := with_fs (made_dirs lp (fs st)) st).
  assert (Ha : args st1 = args st) by reflexivity.
  rewrite (bind_Ok _ _ _ _ _ _ (init_tracking_eq sd lp st1)). rewrite Ha.
  set (st2 := if no_wandb (args st) then st1
              else with_run (Some (tracking_run (args st) sd lp)) st1).
  assert (Ha2 : args st2 = args st)
    by (unfold st2; destruct (no_wandb (args st)); reflexivity).
  assert (Hrun : no_wandb (args st2) = false ->
                 run st2 = Some (tracking_run (args st2) sd lp)).
  { rewrite Ha2. unfold st2. intros ->. reflexivity. }
  rewrite (bind_Ok _ _ _ _ _ _ (build_env_eq w lp st2)).
  rewrite (bind_Ok _ _ _ _ _ _ (build_model_eq w sd _ st2)).
  rewrite (bind_Ok _ _ _ _ _ _ (make_callback_eq w sd lp _ st2 Hrun)).
  rewrite (bind_Ok _ _ _ _ _ _ (setup_logger_eq lp _ st2)).
  rewrite (bind_Ok _ _ _ _ _ _ (train_eq sd lp _ st2)).
  rewrite finish_eq. rewrite Ha2.
  destruct (run st2); unfold prepend, outcome, final_state, events;
    cbn [fst snd];
    rewrite ?app_nil_r; repeat rewrite <- app_assoc; reflexivity.
Qed.

(** ** The checks before the loop *)

Lemma default_save_interval_eq st :
  default_save_interval st = (Ok tt, with_args (defaulted (args st)) st, []).
Proof.
  unfold default_save_interval, defaulted, bind, get_args, put_args, ret,
    with_args.
  destruct (truthy_int (save_interval (args st))); simpl.
  - rewrite set_save_interval_same. destruct st; reflexivity.
  - reflexivity.
Qed.

Lemma save_interval_defaulted a :
  save_interval (defaulted a) = Some (effective_save_interval a).
Proof.
  unfold defaulted, effective_save_interval, truthy_int.
  destruct (save_interval a) as [z|]; simpl; [|reflexivity].
  destruct (z =? 0); reflexivity.
Qed.

(** Once line 75 is over, a zero [save_interval] means zero [timesteps]. *)
Lemma effective_save_interval_zero a :
  effective_save_interval a = 0 -> timesteps a = 0.
Proof.
  unfold effective_save_interval.
  destruct (save_interval a) as [z|]; [|tauto].
  destruct (z =? 0) eqn:E; [tauto|]. apply Z.eqb_neq in E. tauto.
Qed.

Lemma check_timesteps_eq a l r files :
  check_timesteps (mkState (defaulted a) l r files)
  = if timesteps_ok a
    then (Ok tt, mkState (defaulted a) (Some (negb (timesteps a =? 0))) r files, [])
    else (Raise (AssertionError (timesteps_msg a)),
          mkState (defaulted a) (Some (negb (timesteps a =? 0))) r files, []).
Proof.
  unfold check_timesteps, timesteps_ok, timesteps_msg.
  unfold bind at 1. unfold get_args at 1. cbn [args].
  replace (timesteps (defaulted a)) with (timesteps a) by reflexivity.
  rewrite save_interval_defaulted.
  destruct (timesteps a =? 0) eqn:E0; [reflexivity|].
  cbn [orb negb]. unfold bind, put_learn, as_int, assert_, py_mod.
  unfold ret, raise. cbn [args learn run fs].
  destruct (timesteps a >=? effective_save_interval a); [|reflexivity].
  cbn [andb].
  destruct (effective_save_interval a =? 0) eqn:Ez.
  - apply Z.eqb_eq in Ez. apply effective_save_interval_zero in Ez.
    apply Z.eqb_neq in E0. contradiction.
  - destruct (timesteps a mod effective_save_interval a =? 0); reflexivity.
Qed.

Lemma check_paths_eq st :
  check_paths st
  = if negb (model_path_ok (fs st) (args st))
    then (Raise (AssertionError (model_path_msg (args st))), st, [])
    else if negb (log_dir_ok (fs st) (args st))
    then (Raise (AssertionError
                   ("The log_dir doesn't exist! " ++ log_dir (args st))), st, [])
    else (Ok tt, st, []).
Proof.
  unfold check_paths, model_path_ok, model_path_msg, log_dir_ok.
  unfold bind, get_args, get_fs, assert_, ret, raise.
  destruct (model_path (args st)) as [p|]; cbn [negb orb].
  - destruct (p =? "")%string; cbn [negb orb].
    + destruct (log_dir (args st) =? "")%string; cbn [negb orb];
        [reflexivity|].
      destruct (os_path_exists (fs st) (log_dir (args st))); reflexivity.
    + destruct (os_path_exists (fs st) p); cbn [negb]; [|reflexivity].
      destruct (log_dir (args st) =? "")%string; cbn [negb orb];
        [reflexivity|].
      destruct (os_path_exists (fs st) (log_dir (args st))); reflexivity.
  - destruct (log_dir (args st) =? "")%string; cbn [negb orb];
      [reflexivity|].
    destruct (os_path_exists (fs st) (log_dir (args st))); reflexivity.
Qed.

Lemma wandb_setup_eq w st :
  wandb_setup w st
  = if no_wandb (args st) then (Ok tt, st, [])
    else match environ w "WANDB_API_KEY" with
         | Some key => (Ok tt, st, [call_wandb_login key])
         | None => (Raise (KeyError "WANDB_API_KEY"), st, [])
         end.
Proof.
  unfold wandb_setup, bind, get_args, environ_lookup, emit, ret, raise.
  destruct (no_wandb (args st)); cbn [negb]; [reflexivity|].
  destruct (environ w "WANDB_API_KEY"); reflexivity.
Qed.

(** The script in closed form up to the loop. *)
Lemma run_script_eq w a files :
  run_script w a files
  = if negb (timesteps_ok a)
    then (Raise (AssertionError (timesteps_msg a)), checked_state a files, [])
    else if negb (model_path_ok files a)
    then (Raise (AssertionError (model_path_msg a)), checked_state a files, [])
    else if negb (log_dir_ok files a)
    then (Raise (AssertionError ("The log_dir doesn't exist! " ++ log_dir a)),
          checked_state a files, [])
    else if no_wandb a
    then for_each (seed a) (run_seed w) (checked_state a files)
    else match environ w "WANDB_API_KEY" with
         | Some key =>
             (outcome (for_each (seed a) (run_seed w) (checked_state a files)),
              final_state (for_each (seed a) (run_seed w) (checked_state a files)),
              call_wandb_login key
              :: events (for_each (seed a) (run_seed w) (checked_state a files)))
         | None => (Raise (KeyError "WANDB_API_KEY"), checked_state a files, [])
         end.
Proof.
  unfold run_script, main, after_parse, checked_state.
  rewrite (bind_Ok _ _ _ _ _ _ (default_save_interval_eq _)), prepend_nil.
  unfold with_args. cbn [args learn run fs].
  pose proof (check_timesteps_eq a None None files) as Hct.
  destruct (timesteps_ok a); cbn [negb].
  2:{ rewrite (bind_Raise _ _ _ _ _ _ Hct). reflexivity. }
  rewrite (bind_Ok _ _ _ _ _ _ Hct), prepend_nil. clear Hct.
  set (st := mkState (defaulted a) (Some (negb (timesteps a =? 0))) None files).
  pose proof (check_paths_eq st) as Hcp.
  replace (model_path_ok (fs st) (args st)) with (model_path_ok files a)
    in Hcp by reflexivity.
  replace (log_dir_ok (fs st) (args st)) with (log_dir_ok files a)
    in Hcp by reflexivity.
  replace (model_path_msg (args st)) with (model_path_msg a)
    in Hcp by reflexivity.
  replace (log_dir (args st)) with (log_dir a) in Hcp by reflexivity.
  destruct (model_path_ok files a); cbn [negb] in *.
  2:{ rewrite (bind_Raise _ _ _ _ _ _ Hcp). reflexivity. }
  destruct (log_dir_ok files a); cbn [negb] in *.
  2:{ rewrite (bind_Raise _ _ _ _ _ _ Hcp). reflexivity. }
  rewrite (bind_Ok _ _ _ _ _ _ Hcp), prepend_nil. clear Hcp.
  pose proof (wandb_setup_eq w st) as Hws.
  replace (no_wandb (args st)) with (no_wandb a) in Hws by reflexivity.
  assert (Hloop : (a0 <- get_args ;; for_each (seed a0) (run_seed w)) st
                  = for_each (seed a) (run_seed w) st).
  { rewrite (bind_Ok get_args _ st (args st) st [] eq_refl), prepend_nil.
    reflexivity. }
  destruct (no_wandb a).
  - rewrite (bind_Ok _ _ _ _ _ _ Hws), prepend_nil. exact Hloop.
  - destruct (environ w "WANDB_API_KEY") as [key|].
    + rewrite (bind_Ok _ _ _ _ _ _ Hws), Hloop. reflexivity.
    + rewrite (bind_Raise _ _ _ _ _ _ Hws). reflexivity.
Qed.

(** ** The loop *)

Lemma seed_state_args w sd st : args (seed_state w sd st) = args st.
Proof. unfold seed_state. destruct (no_wandb (args st)); reflexivity. Qed.

Lemma run_seed_final_state w sd st :
  final_state (run_seed w sd st) = seed_state w sd st.
Proof. rewrite run_seed_eq. destruct (run (seed_state w sd st)); reflexivity. Qed.

(** An iteration ends normally or with the [NameError] of line 237. *)
Lemma run_seed_outcome w sd st :
  outcome (run_seed w sd st) = Ok tt
  \/ outcome (run_seed w sd st) = Raise (NameError "run").
Proof.
  rewrite run_seed_eq. destruct (run (seed_state w sd st)); [left|right];
    reflexivity.
Qed.

Lemma for_each_cons {A} (x : A) xs body st :
  for_each (x :: xs) body st
  = match body x st with
    | (Ok _, st1, es1) => prepend es1 (for_each xs body st1)
    | (Raise e, st1, es1) => (Raise e, st1, es1)
    end.
Proof.
  simpl. unfold bind, prepend, outcome, final_state, events.
  destruct (body x st) as [[[u|e] st1] es1]; [|reflexivity].
  destruct (for_each xs body st1) as [[r st2] es2]. reflexivity.
Qed.

Lemma for_each_args w seeds st :
  args (final_state (for_each seeds (run_seed w) st)) = args st.
Proof.
  revert st. induction seeds as [|sd seeds IH]; intros st; [reflexivity|].
  rewrite for_each_cons.
  pose proof (run_seed_final_state w sd st) as Hst.
  destruct (run_seed w sd st) as [[[u|e] st1] es1]; unfold final_state in Hst;
    simpl in Hst; subst st1.
  - unfold prepend, final_state at 1. simpl. rewrite IH. apply seed_state_args.
  - apply seed_state_args.
Qed.

Lemma for_each_outcome w seeds st :
  outcome (for_each seeds (run_seed w) st) = Ok tt
  \/ outcome (for_each seeds (run_seed w) st) = Raise (NameError "run").
Proof.
  revert st. induction seeds as [|sd seeds IH]; intros st; [left; reflexivity|].
  rewrite for_each_cons.
  pose proof (run_seed_outcome w sd st) as Ho.
  destruct (run_seed w sd st) as [[[u|e] st1] es1]; unfold outcome in Ho;
    simpl in Ho.
  - unfold prepend, outcome at 1 3. simpl. apply IH.
  - destruct Ho as [Ho|Ho]; [discriminate|]. right. rewrite Ho. reflexivity.
Qed.

(** ** C2: what happens to [args] after parsing *)

Lemma check_timesteps_args st : args (final_state (check_timesteps st)) = args st.
Proof.
  unfold check_timesteps, bind, get_args, put_learn, as_int, assert_, py_mod.
  unfold ret, raise.
  destruct (timesteps (args st) =? 0); [reflexivity|].
  destruct (save_interval (args st)) as [si|]; [|reflexivity]. simpl.
  destruct (timesteps (args st) >=? si); [|reflexivity]. simpl.
  destruct (si =? 0); [reflexivity|]. simpl.
  destruct (timesteps (args st) mod si =? 0); reflexivity.
Qed.

Lemma check_paths_args st : args (final_state (check_paths st)) = args st.
Proof.
  rewrite check_paths_eq.
  destruct (negb (model_path_ok (fs st) (args st))); [reflexivity|].
  destruct (negb (log_dir_ok (fs st) (args st))); reflexivity.
Qed.

Lemma wandb_setup_args w st : args (final_state (wandb_setup w st)) = args st.
Proof.
  rewrite wandb_setup_eq. destruct (no_wandb (args st)); [reflexivity|].
  destruct (environ w "WANDB_API_KEY"); reflexivity.
Qed.

Lemma run_script_args w a files :
  args (final_state (run_script w a files)) = defaulted a.
Proof.
  rewrite run_script_eq.
  destruct (negb (timesteps_ok a)); [reflexivity|].
  destruct (negb (model_path_ok files a)); [reflexivity|].
  destruct (negb (log_dir_ok files a)); [reflexivity|].
  destruct (no_wandb a).
  - apply for_each_args.
  - destruct (environ w "WANDB_API_KEY"); [|reflexivity].
    unfold final_state at 1. simpl. apply for_each_args.
Qed.

(** C2, the claim as stated fails: on the command line
    [--seed 1 2 --env_name Pendulum-v1] the namespace at the end of the
    script differs from the parsed one ([save_interval] went from [None] to
    [1000000]). *)
Lemma args_modified_after_parsing :
  args (final_state (run_script sample_world sample_args sample_files))
  <> sample_args.
Proof.
  intros H. apply (f_equal save_interval) in H. vm_compute in H. discriminate H.
Qed.

(** C2, amended: after parsing, the only field of [args] that is ever written
    is [save_interval], at line 75, and only when it was not given or is 0:
    it then receives the value of [timesteps].  Every later block of the
    script leaves [args] as it found it, and so the namespace at the end of
    the script is the parsed one with that single field replaced. *)
Theorem only_save_interval_is_written w a files :
  args (final_state (default_save_interval (after_parse a files)))
  = set_save_interval
      (if truthy_int (save_interval a) then save_interval a
       else Some (timesteps a)) a
  /\ (forall st, args (final_state (check_timesteps st)) = args st)
  /\ (forall st, args (final_state (check_paths st)) = args st)
  /\ (forall st, args (final_state (wandb_setup w st)) = args st)
  /\ (forall sd st, args (final_state (run_seed w sd st)) = args st)
  /\ args (final_state (run_script w a files))
     = set_save_interval
         (if truthy_int (save_interval a) then save_interval a
          else Some (timesteps a)) a.
Proof.
  split; [rewrite default_save_interval_eq; reflexivity|].
  split; [exact check_timesteps_args|].
  split; [exact check_paths_args|].
  split; [exact (wandb_setup_args w)|].
  split.
  - intros sd st. rewrite run_seed_final_state. apply seed_state_args.
  - apply run_script_args.
Qed.

(** ** C4: the validation of [timesteps] against [save_interval] *)

Lemma run_script_aborts w a files :
  timesteps_ok a && model_path_ok files a && log_dir_ok files a = false ->
  exists msg st, run_script w a files = (Raise (AssertionError msg), st, []).
Proof.
  intros H. rewrite run_script_eq.
  destruct (timesteps_ok a); cbn [negb]; [|eauto].
  destruct (model_path_ok files a); cbn [negb]; [|eauto].
  destruct (log_dir_ok files a); cbn [negb]; [discriminate H|eauto].
Qed.

Lemma run_script_proceeds w a files :
  timesteps_ok a = true -> model_path_ok files a = true ->
  log_dir_ok files a = true ->
  run_script w a files
  = (wandb_setup w ;; a' <- get_args ;; for_each (seed a') (run_seed w))
      (checked_state a files).
Proof.
  intros H1 H2 H3. rewrite run_script_eq, H1, H2, H3. cbn [negb].
  set (st := checked_state a files).
  assert (Hloop : (a0 <- get_args ;; for_each (seed a0) (run_seed w)) st
                  = for_each (seed a) (run_seed w) st).
  { rewrite (bind_Ok get_args _ st (args st) st [] eq_refl), prepend_nil.
    reflexivity. }
  pose proof (wandb_setup_eq w st) as Hws.
  replace (no_wandb (args st)) with (no_wandb a) in Hws by reflexivity.
  destruct (no_wandb a).
  - rewrite (bind_Ok _ _ _ _ _ _ Hws), prepend_nil, Hloop. reflexivity.
  - destruct (environ w "WANDB_API_KEY") as [key|].
    + rewrite (bind_Ok _ _ _ _ _ _ Hws), Hloop. reflexivity.
    + rewrite (bind_Raise _ _ _ _ _ _ Hws). reflexivity.
Qed.

(** Past the checks no assertion fails any more. *)
Lemma run_script_no_assertion w a files msg :
  timesteps_ok a = true -> model_path_ok files a = true ->
  log_dir_ok files a = true ->
  outcome (run_script w a files) <> Raise (AssertionError msg).
Proof.
  intros H1 H2 H3. rewrite run_script_eq, H1, H2, H3. cbn [negb].
  pose proof (for_each_outcome w (seed a) (checked_state a files)) as Ho.
  destruct (no_wandb a).
  - destruct Ho as [Ho|Ho]; rewrite Ho; discriminate.
  - destruct (environ w "WANDB_API_KEY"); [|discriminate].
    unfold outcome at 1. simpl. destruct Ho as [Ho|Ho]; rewrite Ho; discriminate.
Qed.

(** With [timesteps] 0, lines 77-82 set [learn] and evaluate no assertion,
    whatever [save_interval] holds. *)
Lemma check_timesteps_zero st :
  timesteps (args st) = 0 ->
  check_timesteps st = (Ok tt, with_learn (Some false) st, []).
Proof.
  intros H. unfold check_timesteps, bind, get_args, put_learn.
  rewrite H. reflexivity.
Qed.

(** C4, the claim as stated fails: with [--timesteps 0 --save_interval 5] the
    total is lower than [save_interval], and yet no assertion fails: the
    script runs through and calls [model.learn]. *)
Lemma zero_timesteps_not_validated :
  let a := set_save_interval (Some 5) (set_timesteps 0 sample_args) in
  (timesteps a >=? 5) = false
  /\ save_interval a = Some 5
  /\ outcome (run_script sample_world a sample_files) = Ok tt
  /\ existsb is_learn (events (run_script sample_world a sample_files)) = true.
Proof. vm_compute. repeat split. Qed.

(** C4, amended: for every parsed configuration whose [timesteps] is not 0,
    the script checks that [timesteps] is at least [save_interval] and a
    multiple of it, where [save_interval] stands for the value the field holds
    after line 75 (the given one, or [timesteps] when none or 0 was given).
    When one of the two fails, the script ends with an [AssertionError]
    before it has called anything (no login, no run); when both hold, the two
    assertions pass.  With [timesteps] 0 both assertions are skipped: lines
    77-82 only set [learn] to [False], they pass whatever [save_interval]
    is, and the script does not end with either of the two messages. *)
Theorem timesteps_validated_unless_zero w a files :
  (timesteps a <> 0 ->
   save_interval
     (args (final_state (default_save_interval (after_parse a files))))
   = Some (effective_save_interval a)
   /\ (timesteps a < effective_save_interval a
       \/ timesteps a mod effective_save_interval a <> 0 ->
       exists msg st,
         run_script w a files = (Raise (AssertionError msg), st, []))
   /\ (timesteps a >= effective_save_interval a ->
       timesteps a mod effective_save_interval a = 0 ->
       outcome ((default_save_interval ;; check_timesteps)
                  (after_parse a files))
       = Ok tt))
  /\ (timesteps a = 0 ->
      check_timesteps (final_state (default_save_interval (after_parse a files)))
      = (Ok tt,
         with_learn (Some false)
           (final_state (default_save_interval (after_parse a files))),
         [])
      /\ outcome ((default_save_interval ;; check_timesteps)
                    (after_parse a files))
         = Ok tt
      /\ outcome (run_script w a files)
         <> Raise (AssertionError
                     "Total timesteps cannot be lower than save_interval!")
      /\ outcome (run_script w a files)
         <> Raise (AssertionError
                     "save_interval must be a divisor of total timesteps.")).
Proof.
  split.
  - intros Hnz. split; [|split].
    + rewrite default_save_interval_eq. apply save_interval_defaulted.
    + intros Hbad. apply run_script_aborts.
      assert (Hok : timesteps_ok a = false); [|rewrite Hok; reflexivity].
      unfold timesteps_ok. apply Z.eqb_neq in Hnz. rewrite Hnz. cbn [orb].
      apply andb_false_iff. destruct Hbad as [Hlt|Hmod].
      * left. rewrite Z.geb_leb. apply Z.leb_gt. exact Hlt.
      * right. apply Z.eqb_neq. exact Hmod.
    + intros Hge Hmod.
      rewrite (bind_Ok _ _ _ _ _ _ (default_save_interval_eq _)), prepend_nil.
      unfold after_parse, with_args. cbn [args learn run fs].
      rewrite check_timesteps_eq.
      assert (Hok : timesteps_ok a = true); [|rewrite Hok; reflexivity].
      unfold timesteps_ok. apply Z.eqb_neq in Hnz. rewrite Hnz. cbn [orb].
      apply andb_true_iff. split.
      * apply Z.geb_le. lia.
      * apply Z.eqb_eq. exact Hmod.
  - intros Hz.
    assert (Hok : timesteps_ok a = true).
    { unfold timesteps_ok. rewrite Hz. reflexivity. }
    split; [|split].
    + apply check_timesteps_zero. rewrite default_save_interval_eq. exact Hz.
    + rewrite (bind_Ok _ _ _ _ _ _ (default_save_interval_eq _)), prepend_nil.
      unfold after_parse, with_args. cbn [args learn run fs].
      rewrite check_timesteps_eq, Hok. reflexivity.
    + assert (H : forall msg,
                 String.get 1 msg <> Some "h"%char ->
                 outcome (run_script w a files) <> Raise (AssertionError msg)).
      { intros msg Hmsg. rewrite run_script_eq, Hok. cbn [negb].
        destruct (negb (model_path_ok files a)) eqn:Em.
        { unfold model_path_ok, model_path_msg in *.
          destruct (model_path a); [|discriminate Em].
          intros H. inversion H. subst msg. apply Hmsg. reflexivity. }
        destruct (negb (log_dir_ok files a)).
        { intros H. inversion H. subst msg. apply Hmsg. reflexivity. }
        pose proof (for_each_outcome w (seed a) (checked_state a files)) as Ho.
        destruct (no_wandb a).
        - destruct Ho as [Ho|Ho]; rewrite Ho; discriminate.
        - destruct (environ w "WANDB_API_KEY"); [|discriminate].
          rewrite outcome_triple. destruct Ho as [Ho|Ho]; rewrite Ho;
            discriminate. }
      split; apply H; discriminate.
Qed.

(** [--timesteps 10 --save_interval 3]: 10 is not a multiple of 3. *)
Lemma timesteps_validated_unless_zero_witness :
  exists msg st,
    run_script sample_world
      (set_save_interval (Some 3) (set_timesteps 10 sample_args)) sample_files
    = (Raise (AssertionError msg), st, []).
Proof.
  refine (proj1 (proj2 (proj1 (timesteps_validated_unless_zero sample_world
            (set_save_interval (Some 3) (set_timesteps 10 sample_args))
            sample_files) _)) _).
  - vm_compute. discriminate.
  - right. vm_compute. discriminate.
Defined.

(** ** C5: the path checks *)

Lemma timesteps_checks_outcome a files :
  outcome ((default_save_interval ;; check_timesteps) (after_parse a files))
  = Ok tt ->
  timesteps_ok a = true.
Proof.
  rewrite (bind_Ok _ _ _ _ _ _ (default_save_interval_eq _)), prepend_nil.
  unfold after_parse, with_args. cbn [args learn run fs].
  rewrite check_timesteps_eq.
  destruct (timesteps_ok a); [reflexivity|discriminate].
Qed.

Lemma model_path_ok_false files a :
  model_path_ok files a = false <->
  exists p, model_path a = Some p /\ p <> "" /\ os_path_exists files p = false.
Proof.
  unfold model_path_ok. destruct (model_path a) as [p|]; split.
  - intros H. apply orb_false_iff in H. destruct H as [H1 H2].
    exists p. apply String.eqb_neq in H1. auto.
  - intros (q & Hq & Hne & Hex). inversion Hq; subst q.
    apply String.eqb_neq in Hne. rewrite Hne, Hex. reflexivity.
  - discriminate.
  - intros (q & Hq & _). discriminate.
Qed.

Lemma log_dir_ok_false files a :
  log_dir_ok files a = false <->
  log_dir a <> "" /\ os_path_exists files (log_dir a) = false.
Proof.
  unfold log_dir_ok. rewrite orb_false_iff, String.eqb_neq. reflexivity.
Qed.

(** C5, the claim as stated fails: with [--log_dir ""] the log directory does
    not exist ([os.path.exists("")] is false), and yet no assertion fails: the
    script runs through and calls [model.learn]. *)
Lemma empty_log_dir_not_checked :
  let a := set_log_dir "" sample_args in
  os_path_exists sample_files (log_dir a) = false
  /\ outcome (run_script sample_world a sample_files) = Ok tt
  /\ existsb is_learn (events (run_script sample_world a sample_files)) = true.
Proof. vm_compute. repeat split. Qed.

(** C5, amended: the paths are checked by assertions, and only paths that are
    not the empty string are checked.  If a non-empty [model_path] is given
    that does not exist, or if [log_dir] is non-empty and does not exist, the
    script ends with an [AssertionError] before it has called anything (no
    login, no seed's run).  If every non-empty one of the two paths exists,
    the path checks pass without a trace; if the timesteps checks passed as
    well, the script goes on with the login and the loop over the seeds, and
    no assertion fails later. *)
Theorem nonempty_paths_are_checked w a files :
  ((exists p, model_path a = Some p /\ p <> ""
              /\ os_path_exists files p = false)
   \/ (log_dir a <> "" /\ os_path_exists files (log_dir a) = false) ->
   exists msg st, run_script w a files = (Raise (AssertionError msg), st, []))
  /\ ((forall p, model_path a = Some p -> p <> "" ->
                 os_path_exists files p = true) ->
      (log_dir a <> "" -> os_path_exists files (log_dir a) = true) ->
      check_paths (checked_state a files) = (Ok tt, checked_state a files, [])
      /\ (outcome ((default_save_interval ;; check_timesteps)
                     (after_parse a files)) = Ok tt ->
          run_script w a files
          = (wandb_setup w ;; a' <- get_args ;; for_each (seed a') (run_seed w))
              (checked_state a files)
          /\ forall msg,
               outcome (run_script w a files) <> Raise (AssertionError msg))).
Proof.
  split.
  - intros H. apply run_script_aborts.
    destruct H as [H|H].
    + apply model_path_ok_false in H. rewrite H.
      destruct (timesteps_ok a); reflexivity.
    + apply log_dir_ok_false in H. rewrite H.
      destruct (timesteps_ok a), (model_path_ok files a); reflexivity.
  - intros Hm Hl.
    assert (Hmo : model_path_ok files a = true).
    { destruct (model_path_ok files a) eqn:E; [reflexivity|].
      apply model_path_ok_false in E. destruct E as (p & Hp & Hne & Hex).
      rewrite (Hm p Hp Hne) in Hex. discriminate. }
    assert (Hlo : log_dir_ok files a = true).
    { destruct (log_dir_ok files a) eqn:E; [reflexivity|].
      apply log_dir_ok_false in E. destruct E as [Hne Hex].
      rewrite (Hl Hne) in Hex. discriminate. }
    split.
    + rewrite check_paths_eq.
      replace (model_path_ok (fs (checked_state a files))
                 (args (checked_state a files)))
        with (model_path_ok files a) by reflexivity.
      replace (log_dir_ok (fs (checked_state a files))
                 (args (checked_state a files)))
        with (log_dir_ok files a) by reflexivity.
      rewrite Hmo, Hlo. reflexivity.
    + intros Ht. apply timesteps_checks_outcome in Ht. split.
      * apply run_script_proceeds; assumption.
      * intros msg. apply run_script_no_assertion; assumption.
Qed.

(** [--model_path missing.zip], a file that is not there. *)
Lemma nonempty_paths_are_checked_witness :
  exists msg st,
    run_script sample_world (set_model_path (Some "missing.zip") sample_args)
      sample_files
    = (Raise (AssertionError msg), st, []).
Proof.
  refine (proj1 (nonempty_paths_are_checked sample_world
            (set_model_path (Some "missing.zip") sample_args) sample_files) _).
  left. exists "missing.zip". repeat split.
  vm_compute. discriminate.
Defined.

(** ** The events of one iteration, by kind *)

Ltac split_events :=
  unfold seed_events, dirs_events, tracking_events, env_events, model_events,
    new_model_events, callback_events, logger_events, learn_event;
  repeat match goal with
         | |- context [match ?x with _ => _ end] =>
             match type of x with
             | bool => destruct x eqn:?
             | option _ => destruct x eqn:?
             | Space => destruct x eqn:?
             | DType => destruct x eqn:?
             end
         end.

Lemma seed_events_learn w a sd log_path :
  filter is_learn (seed_events w a sd log_path)
  = [learn_event a sd log_path
       (fst (built_model w a sd (built_env w a log_path)))].
Proof. split_events; reflexivity. Qed.

Lemma seed_events_finish w a sd log_path :
  filter is_finish (seed_events w a sd log_path) = [].
Proof. split_events; reflexivity. Qed.

Lemma seed_events_makedirs w a sd log_path :
  filter is_makedirs (seed_events w a sd log_path)
  = map (fun d => call_os_makedirs d true) (run_dirs log_path).
Proof. split_events; reflexivity. Qed.

(** ** C1: the end of an iteration *)

Lemma checks_outcome a files :
  outcome ((default_save_interval ;; check_timesteps ;; check_paths)
             (after_parse a files)) = Ok tt ->
  timesteps_ok a = true /\ model_path_ok files a = true
  /\ log_dir_ok files a = true.
Proof.
  rewrite (bind_Ok _ _ _ _ _ _ (default_save_interval_eq _)), prepend_nil.
  unfold after_parse, with_args. cbn [args learn run fs].
  pose proof (check_timesteps_eq a None None files) as Hct.
  destruct (timesteps_ok a).
  2:{ rewrite (bind_Raise _ _ _ _ _ _ Hct). discriminate. }
  rewrite (bind_Ok _ _ _ _ _ _ Hct), prepend_nil, check_paths_eq.
  cbn [args fs].
  destruct (model_path_ok files (defaulted a)) eqn:Em;
    destruct (log_dir_ok files (defaulted a)) eqn:El;
    cbn [negb]; try discriminate.
  intros _. repeat split; assumption.
Qed.

(** With [--no_wandb] the variable [run] is never bound, so the first
    iteration ends at line 237 with a [NameError]. *)
Lemma untracked_loop w sd rest st :
  no_wandb (args st) = true -> run st = None ->
  for_each (sd :: rest) (run_seed w) st
  = (Raise (NameError "run"), seed_state w sd st,
     seed_events w (args st) sd (log_path_of w (args st) (fs st) sd)).
Proof.
  intros Hnw Hrun. rewrite for_each_cons, run_seed_eq.
  assert (Hr : run (seed_state w sd st) = None).
  { unfold seed_state. rewrite Hnw. exact Hrun. }
  rewrite Hr. reflexivity.
Qed.

(** With tracking, an iteration runs through, and ends with the call of
    [run.finish] on the run that [wandb.init] returned in this iteration. *)
Lemma tracked_iteration w sd st :
  no_wandb (args st) = false ->
  run_seed w sd st
  = (Ok tt, seed_state w sd st,
     (seed_events w (args st) sd (log_path_of w (args st) (fs st) sd)
      ++ [call_run_finish
            (tracking_run (args st) sd
               (log_path_of w (args st) (fs st) sd))])%list).
Proof.
  intros Hnw. rewrite run_seed_eq. unfold seed_state. rewrite Hnw. reflexivity.
Qed.

(** With tracking, the order within an iteration is: callback, logger,
    training loop, and the finalization as the last event. *)
Lemma tracked_iteration_order w sd st :
  no_wandb (args st) = false ->
  let a := args st in
  let log_path := log_path_of w a (fs st) sd in
  let model := fst (built_model w a sd (built_env w a log_path)) in
  let cb := mkWandbCallback 10000 (models_path_of log_path) (save_interval a) 2 in
  exists before,
    events (run_seed w sd st)
    = (before
       ++ [call_WandbCallback cb;
           call_configure log_path ["stdout"; "csv"; "tensorboard"];
           call_set_max_length 50; call_set_logger log_path; call_print_actor;
           call_print_critic;
           if is_CspnActor (model_actor model) then call_print_cspn_params
           else call_print_mlp_params;
           call_model_learn model (timesteps a) (log_interval a)
             (negb (truthy_str (model_path a)))
             (proj_name a ++ "/" ++ run_name_seed_of a sd) (Some cb);
           call_run_finish (tracking_run a sd log_path)])%list.
Proof.
  intros Hnw a log_path model cb.
  rewrite (tracked_iteration w sd st Hnw).
  fold a. fold log_path.
  exists (dirs_events sd log_path ++ tracking_events a sd log_path
          ++ env_events w a log_path
          ++ model_events a sd (built_env w a log_path)
          ++ [call_run_config_update (tracking_run a sd log_path)
                (dict_set "machine" (VStr (platform_node w))
                   (snd (built_model w a sd (built_env w a log_path))))])%list.
  unfold events, seed_events, callback_events, logger_events, learn_event,
    built_callback. fold a in Hnw. rewrite Hnw. cbn [snd].
  repeat rewrite <- app_assoc. reflexivity.
Qed.

(** C1, at the failing input and at every input like it: with [--no_wandb],
    once the checks have passed, the first seed's iteration calls
    [model.learn] and then fails with [NameError: name 'run' is not defined]
    at the call of [run.finish()].  No finalization is executed, and the
    iterations of the remaining seeds never start: the script has called
    [model.learn] once. *)
Theorem finish_fails_without_tracking w a files sd rest :
  no_wandb a = true ->
  seed a = sd :: rest ->
  outcome ((default_save_interval ;; check_timesteps ;; check_paths)
             (after_parse a files)) = Ok tt ->
  outcome (run_script w a files) = Raise (NameError "run")
  /\ filter is_finish (events (run_script w a files)) = []
  /\ length (filter is_learn (events (run_script w a files))) = 1%nat
  /\ filter is_makedirs (events (run_script w a files))
     = map (fun d => call_os_makedirs d true)
         (run_dirs (log_path_of w (defaulted a) files sd)).
Proof.
  intros Hnw Hseed Hchecks.
  apply checks_outcome in Hchecks. destruct Hchecks as (H1 & H2 & H3).
  rewrite run_script_eq, H1, H2, H3, Hnw, Hseed. cbn [negb].
  rewrite untracked_loop by (try reflexivity; exact Hnw).
  unfold outcome, events. cbn [fst snd].
  rewrite seed_events_finish, seed_events_learn, seed_events_makedirs.
  repeat split.
Qed.

(** [--seed 1 2 --env_name Pendulum-v1 --no_wandb] *)
Lemma finish_fails_without_tracking_witness :
  outcome (run_script sample_world (set_no_wandb true sample_args) sample_files)
  = Raise (NameError "run")
  /\ filter is_finish
       (events (run_script sample_world (set_no_wandb true sample_args)
                  sample_files)) = []
  /\ length
       (filter is_learn
          (events (run_script sample_world (set_no_wandb true sample_args)
                     sample_files))) = 1%nat.
Proof.
  pose proof (finish_fails_without_tracking sample_world
                (set_no_wandb true sample_args) sample_files 1 [2]
                eq_refl eq_refl eq_refl) as H.
  destruct H as (H1 & H2 & H3 & _). repeat split; assumption.
Defined.

(** ** The directories of one iteration *)

Lemma os_path_exists_true files d :
  os_path_exists files d = true <-> d <> "" /\ In d files.
Proof.
  unfold os_path_exists. destruct d as [|c d].
  - split; [discriminate|]. intros [H _]. contradiction H. reflexivity.
  - rewrite existsb_exists. split.
    + intros (x & Hin & Heq). apply String.eqb_eq in Heq. subst x.
      split; [discriminate|exact Hin].
    + intros [_ Hin]. exists (String c d). split; [exact Hin|].
      apply String.eqb_refl.
Qed.

Lemma In_mkdir_leaf files d' d :
  In d (mkdir_leaf files d') <-> In d files \/ d = d'.
Proof.
  unfold mkdir_leaf. destruct (os_path_exists files d') eqn:E.
  - apply os_path_exists_true in E. destruct E as [_ Hin]. split.
    + intros H. left. exact H.
    + intros [H|H]; [exact H|]. subst d. exact Hin.
  - rewrite in_app_iff. simpl. split.
    + intros [H|[H|[]]]; [left; exact H|right; symmetry; exact H].
    + intros [H|H]; [left; exact H|right; left; symmetry; exact H].
Qed.

(** [os.makedirs] removes nothing and leaves its argument in place. *)
Lemma makedirs_fs_incl fuel files name d :
  In d files -> In d (makedirs_fs fuel files name).
Proof.
  revert files name. induction fuel as [|fuel IH]; intros files name Hin;
    simpl; apply In_mkdir_leaf; left;
    destruct (negb (fst (makedirs_split name) =? "")%string
              && negb (snd (makedirs_split name) =? "")%string
              && negb (os_path_exists files (fst (makedirs_split name))));
    auto.
Qed.

Lemma makedirs_fs_name fuel files name : In name (makedirs_fs fuel files name).
Proof. destruct fuel; simpl; apply In_mkdir_leaf; right; reflexivity. Qed.

Lemma In_mkdir files d' d : In d files \/ d = d' -> In d (mkdir files d').
Proof.
  unfold mkdir. intros [H|H].
  - apply makedirs_fs_incl. exact H.
  - subst d. apply makedirs_fs_name.
Qed.

Lemma In_fold_mkdir ds files d :
  In d files \/ In d ds -> In d (fold_left mkdir ds files).
Proof.
  revert files. induction ds as [|d' ds IH]; intros files; simpl.
  - tauto.
  - intros [H|[H|H]]; apply IH.
    + left. apply In_mkdir. left. exact H.
    + left. apply In_mkdir. right. symmetry. exact H.
    + right. exact H.
Qed.

Lemma os_path_join_nonempty a b : b <> "" -> os_path_join a b <> "".
Proof.
  intros Hb. unfold os_path_join.
  destruct (startswith_sep b); [exact Hb|].
  destruct ((a =? "")%string || endswith_sep a).
  - destruct a; simpl; [exact Hb|discriminate].
  - destruct a; simpl; discriminate.
Qed.

Lemma seed_state_fs w sd st :
  fs (seed_state w sd st)
  = made_dirs (log_path_of w (args st) (fs st) sd) (fs st).
Proof. unfold seed_state. destruct (no_wandb (args st)); reflexivity. Qed.


(** ** C7 and C8: the model of an iteration *)




(** The filters see through the finalization at the end of the iteration. *)
Lemma run_seed_filter w sd st f :
  (forall r, f (call_run_finish r) = false) ->
  filter f (events (run_seed w sd st))
  = filter f (seed_events w (args st) sd (log_path_of w (args st) (fs st) sd)).
Proof.
  intros Hf. rewrite run_seed_eq.
  destruct (run (seed_state w sd st)); unfold events; cbn [snd];
    [|reflexivity].
  rewrite filter_app. simpl. rewrite Hf. apply app_nil_r.
Qed.

Lemma precedes_app_r {A} (x y : A) l l' :
  precedes x y l -> precedes x y (l ++ l').
Proof.
  intros (l1 & l2 & l3 & ->). exists l1, l2, (l3 ++ l')%list.
  rewrite <- app_assoc. simpl. rewrite <- app_assoc. reflexivity.
Qed.

Lemma seed_events_precedes w a sd log_path e :
  model_events a sd (built_env w a log_path) = [e] ->
  precedes e
    (learn_event a sd log_path
       (fst (built_model w a sd (built_env w a log_path))))
    (seed_events w a sd log_path).
Proof.
  intros He. unfold seed_events. cbv zeta. rewrite He.
  exists (dirs_events sd log_path ++ tracking_events a sd log_path
          ++ env_events w a log_path)%list,
    (callback_events w a sd log_path
       (snd (built_model w a sd (built_env w a log_path)))
     ++ logger_events log_path
          (fst (built_model w a sd (built_env w a log_path))))%list,
    (@nil Event).
  repeat rewrite <- app_assoc. reflexivity.
Qed.

Lemma run_seed_precedes w sd st e :
  model_events (args st) sd
    (built_env w (args st) (log_path_of w (args st) (fs st) sd)) = [e] ->
  precedes e
    (learn_event (args st) sd (log_path_of w (args st) (fs st) sd)
       (fst (built_model w (args st) sd
               (built_env w (args st) (log_path_of w (args st) (fs st) sd)))))
    (events (run_seed w sd st)).
Proof.
  intros He. rewrite run_seed_eq.
  destruct (run (seed_state w sd st)); unfold events; cbn [snd].
  - apply precedes_app_r, seed_events_precedes, He.
  - apply seed_events_precedes, He.
Qed.






(** ** C9: the observation space *)

Lemma coerced_space_float64 sp :
  space_dtype sp = float64 ->
  exists lo hi,
    space_low sp = Some lo /\ space_high sp = Some hi
    /\ coerced_space sp = Box lo hi float32.
Proof.
  intros H. destruct (float64_is_Box sp H) as (lo & hi & ->).
  exists lo, hi. repeat split.
Qed.

Lemma coerced_space_other sp : space_dtype sp <> float64 -> coerced_space sp = sp.
Proof.
  destruct sp as [lo hi dt| | |]; try reflexivity.
  destruct dt; try reflexivity. intros H. contradiction H. reflexivity.
Qed.

Lemma built_env_space w a log_path :
  observation_space (unwrapped (built_env w a log_path))
  = coerced_space (env_observation_space w (env_name a)).
Proof. unfold built_env. destruct (no_video a); reflexivity. Qed.

Ltac in_block H :=
  repeat match type of H with
         | context [match ?x with _ => _ end] =>
             match type of x with
             | bool => destruct x
             | option _ => destruct x
             | Space => destruct x
             | DType => destruct x
             end
         end;
  simpl in H;
  repeat match type of H with
         | _ \/ _ => destruct H as [H|H]
         end;
  try contradiction; subst; simpl in *; try discriminate.

Lemma model_events_space w a sd log_path e s :
  In e (model_events a sd (built_env w a log_path)) ->
  handed_observation_space e = Some s ->
  s = coerced_space (env_observation_space w (env_name a)).
Proof.
  intros Hin Hs. rewrite <- (built_env_space w a log_path).
  unfold model_events, new_model_events, cspn_sac_kwargs, new_sac_kwargs in Hin.
  in_block Hin; congruence.
Qed.

Lemma env_events_space w a log_path e s :
  In e (env_events w a log_path) ->
  handed_observation_space e = Some s ->
  s = coerced_space (env_observation_space w (env_name a)).
Proof.
  intros Hin Hs. unfold env_events in Hin.
  destruct (env_observation_space w (env_name a)) as [lo hi dt| | |] eqn:Esp;
    [destruct dt|..];
    (destruct (no_video a); simpl in Hin;
     repeat match type of Hin with
            | _ \/ _ => destruct Hin as [Hin|Hin]
            end;
     try contradiction; subst e; simpl in Hs; try discriminate;
     unfold coerced_env in Hs; simpl in Hs; rewrite Esp in Hs;
     congruence).
Qed.

Lemma seed_events_space w a sd log_path e s :
  In e (seed_events w a sd log_path) ->
  handed_observation_space e = Some s ->
  s = coerced_space (env_observation_space w (env_name a)).
Proof.
  unfold seed_events. cbv zeta. rewrite !in_app_iff.
  intros [H|[H|[H|[H|[H|[H|H]]]]]] Hs.
  - unfold dirs_events in H. in_block H.
  - unfold tracking_events in H. in_block H.
  - eapply env_events_space; eassumption.
  - eapply model_events_space; eassumption.
  - unfold callback_events in H. in_block H.
  - unfold logger_events in H. in_block H.
  - unfold learn_event in H. in_block H.
Qed.

Lemma run_seed_In w sd st e :
  In e (seed_events w (args st) sd (log_path_of w (args st) (fs st) sd)) ->
  In e (events (run_seed w sd st)).
Proof.
  intros H. rewrite run_seed_eq.
  destruct (run (seed_state w sd st)); unfold events; cbn [snd]; [|exact H].
  apply in_or_app. left. exact H.
Qed.

Lemma run_seed_In_inv w sd st e :
  In e (events (run_seed w sd st)) ->
  In e (seed_events w (args st) sd (log_path_of w (args st) (fs st) sd))
  \/ exists r, e = call_run_finish r.
Proof.
  rewrite run_seed_eq.
  destruct (run (seed_state w sd st)) as [r|]; unfold events; cbn [snd];
    [|auto].
  intros H. apply in_app_or in H. destruct H as [H|[H|[]]]; [auto|].
  right. exists r. symmetry. exact H.
Qed.

Lemma model_events_singleton a sd env : exists e, model_events a sd env = [e].
Proof.
  unfold model_events, new_model_events.
  destruct (model_path a) as [p|];
    [destruct (negb (p =? "")%string)|]; try destruct (mlp_actor a);
    eexists; reflexivity.
Qed.

Lemma Box_call_precedes w a sd log_path lo hi e :
  env_observation_space w (env_name a) = Box lo hi float64 ->
  model_events a sd (built_env w a log_path) = [e] ->
  precedes (call_gym_spaces_Box lo hi float32) e (seed_events w a sd log_path).
Proof.
  intros Hsp He. unfold seed_events. cbv zeta. rewrite He.
  unfold env_events. rewrite Hsp.
  exists (dirs_events sd log_path ++ tracking_events a sd log_path
          ++ [call_make_vec_env (env_name a) (num_envs a)
                (monitor_path_of log_path)])%list,
    (if no_video a then []
     else [call_VecVideoRecorder (coerced_env w a log_path)
             (video_path_of log_path) (save_interval a) 200]),
    (callback_events w a sd log_path
       (snd (built_model w a sd (built_env w a log_path)))
     ++ logger_events log_path
          (fst (built_model w a sd (built_env w a log_path)))
     ++ [learn_event a sd log_path
           (fst (built_model w a sd (built_env w a log_path)))])%list.
  repeat rewrite <- app_assoc. reflexivity.
Qed.

Lemma video_precedes w a sd log_path e :
  no_video a = false ->
  model_events a sd (built_env w a log_path) = [e] ->
  precedes
    (call_VecVideoRecorder (coerced_env w a log_path) (video_path_of log_path)
       (save_interval a) 200)
    e (seed_events w a sd log_path).
Proof.
  intros Hv He. unfold seed_events. cbv zeta. rewrite He.
  unfold env_events. rewrite Hv.
  exists (dirs_events sd log_path ++ tracking_events a sd log_path
          ++ call_make_vec_env (env_name a) (num_envs a)
               (monitor_path_of log_path)
             :: match env_observation_space w (env_name a) with
                | Box lo hi float64 => [call_gym_spaces_Box lo hi float32]
                | _ => []
                end)%list,
    (@nil Event),
    (callback_events w a sd log_path
       (snd (built_model w a sd (built_env w a log_path)))
     ++ logger_events log_path
          (fst (built_model w a sd (built_env w a log_path)))
     ++ [learn_event a sd log_path
           (fst (built_model w a sd (built_env w a log_path)))])%list.
  repeat rewrite <- app_assoc. simpl. repeat rewrite <- app_assoc. reflexivity.
Qed.

Lemma run_seed_precedes_gen w sd st x y :
  precedes x y
    (seed_events w (args st) sd (log_path_of w (args st) (fs st) sd)) ->
  precedes x y (events (run_seed w sd st)).
Proof.
  intros H. rewrite run_seed_eq.
  destruct (run (seed_state w sd st)); unfold events; cbn [snd]; [|exact H].
  apply precedes_app_r. exact H.
Qed.

(** C9: in the iteration for a seed, let [sp] be the observation space of the
    environment that [make_vec_env] returned and [env] the environment the
    iteration goes on with.  If the dtype of [sp] is float64, [sp] has bounds
    and the observation space of [env] is [Box(low, high, float32)] with the
    bounds of [sp]; the call that builds it comes before the model call, and
    before the video wrapping when there is one.  If the dtype is anything
    else, the observation space of [env] is [sp] itself.  Every environment
    that the iteration hands to the video recorder, to [CspnSAC.load] or to a
    constructor carries that observation space, and the iteration makes one
    such model call. *)
Theorem float64_observation_space_replaced w sd st :
  let a := args st in
  let sp := env_observation_space w (env_name a) in
  let log_path := log_path_of w a (fs st) sd in
  let evs := events (run_seed w sd st) in
  exists env model_call,
    (forall st', args st' = a -> outcome (build_env w log_path st') = Ok env)
    /\ In model_call evs
    /\ (is_load model_call || is_SAC_new model_call) = true
    /\ (forall e s,
          In e evs -> handed_observation_space e = Some s ->
          s = observation_space (unwrapped env))
    /\ handed_observation_space model_call
       = Some (observation_space (unwrapped env))
    /\ (space_dtype sp = float64 ->
        exists lo hi,
          space_low sp = Some lo /\ space_high sp = Some hi
          /\ observation_space (unwrapped env) = Box lo hi float32
          /\ precedes (call_gym_spaces_Box lo hi float32) model_call evs
          /\ (no_video a = false ->
              exists venv folder trigger len,
                observation_space venv = Box lo hi float32
                /\ precedes (call_gym_spaces_Box lo hi float32)
                     (call_VecVideoRecorder venv folder trigger len) evs
                /\ precedes (call_VecVideoRecorder venv folder trigger len)
                     model_call evs))
    /\ (space_dtype sp <> float64 ->
        observation_space (unwrapped env) = sp
        /\ forall lo hi dt, ~ In (call_gym_spaces_Box lo hi dt) evs).
Proof.
  intros a sp log_path evs. subst sp.
  destruct (model_events_singleton a sd (built_env w a log_path)) as [mc Hmc].
  exists (built_env w a log_path), mc.
  assert (Hin : In mc (seed_events w a sd log_path)).
  { unfold seed_events. cbv zeta. rewrite Hmc, !in_app_iff.
    right. right. right. left. left. reflexivity. }
  assert (Hkind : (is_load mc || is_SAC_new mc) = true
                  /\ handed_observation_space mc
                     = Some (observation_space
                               (unwrapped (built_env w a log_path)))).
  { revert Hmc. unfold model_events, new_model_events, cspn_sac_kwargs,
      new_sac_kwargs.
    destruct (model_path a) as [p|];
      [destruct (negb (p =? "")%string)|]; try destruct (mlp_actor a);
      intros Hmc; inversion Hmc; split; reflexivity. }
  destruct Hkind as [Hkind Hspace].
  split; [intros st' Hst'; rewrite build_env_eq, Hst'; reflexivity|].
  split; [apply run_seed_In; exact Hin|].
  split; [exact Hkind|].
  split.
  { intros e s He Hs. rewrite built_env_space.
    apply run_seed_In_inv in He. destruct He as [He|[r ->]].
    - eapply seed_events_space; eassumption.
    - discriminate Hs. }
  split; [exact Hspace|].
  split.
  - intros Hdt. destruct (float64_is_Box _ Hdt) as (lo & hi & Hsp).
    exists lo, hi. rewrite built_env_space, Hsp.
    repeat split.
    + apply run_seed_precedes_gen.
      apply (Box_call_precedes w a sd log_path lo hi mc Hsp Hmc).
    + intros Hv.
      exists (coerced_env w a log_path), (video_path_of log_path),
        (save_interval a), 200.
      split; [unfold coerced_env; cbn; rewrite Hsp; reflexivity|].
      split.
      * apply run_seed_precedes_gen. fold a. fold log_path.
        unfold seed_events. cbv zeta.
        unfold env_events. rewrite Hsp, Hv.
        exists (dirs_events sd log_path ++ tracking_events a sd log_path
                ++ [call_make_vec_env (env_name a) (num_envs a)
                      (monitor_path_of log_path)])%list,
          (@nil Event),
          (model_events a sd (built_env w a log_path)
           ++ callback_events w a sd log_path
                (snd (built_model w a sd (built_env w a log_path)))
           ++ logger_events log_path
                (fst (built_model w a sd (built_env w a log_path)))
           ++ [learn_event a sd log_path
                 (fst (built_model w a sd (built_env w a log_path)))])%list.
        repeat rewrite <- app_assoc. reflexivity.
      * apply run_seed_precedes_gen.
        apply (video_precedes w a sd log_path mc Hv Hmc).
  - intros Hdt. rewrite built_env_space. split.
    + apply coerced_space_other. exact Hdt.
    + intros lo hi dt He. apply run_seed_In_inv in He.
      destruct He as [He|[r He]]; [|discriminate He].
      fold a in He. fold log_path in He.
      revert He. unfold seed_events. cbv zeta. rewrite !in_app_iff.
      intros [H|[H|[H|[H|[H|[H|H]]]]]].
      * unfold dirs_events in H. in_block H.
      * unfold tracking_events in H. in_block H.
      * unfold env_events in H.
        destruct (env_observation_space w (env_name a))
          as [lo' hi' dt'| | |]; [destruct dt'|..];
          try (contradiction Hdt; reflexivity);
          destruct (no_video a); simpl in H;
          repeat match type of H with
                 | _ \/ _ => destruct H as [H|H]
                 end; try contradiction; discriminate H.
      * rewrite Hmc in H. destruct H as [H|[]]. subst mc.
        discriminate Hkind.
      * unfold callback_events in H. in_block H.
      * unfold logger_events in H. in_block H.
      * unfold learn_event in H. in_block H.
Qed.

(** First iteration of [--seed 1 2 --env_name Pendulum-v1] in the sample
    world, whose environment has a float64 observation space. *)
Lemma float64_observation_space_replaced_witness :
  exists env lo hi, observation_space (unwrapped env) = Box lo hi float32.
Proof.
  destruct (float64_observation_space_replaced sample_world 1 sample_state)
    as (env & mc & _ & _ & _ & _ & _ & H64 & _).
  destruct (H64 eq_refl) as (lo & hi & _ & _ & H & _).
  exists env, lo, hi. exact H.
Defined.

(** ** The variable [learn] and the calls of [model.learn] *)

Lemma seed_state_with_learn w sd l st :
  seed_state w sd (with_learn l st) = with_learn l (seed_state w sd st).
Proof. unfold seed_state. cbn. destruct (no_wandb (args st)); reflexivity. Qed.

Lemma run_seed_ignores_learn w sd : ignores_learn (run_seed w sd).
Proof.
  intros l st. rewrite !run_seed_eq, seed_state_with_learn.
  replace (run (with_learn l (seed_state w sd st)))
    with (run (seed_state w sd st)) by reflexivity.
  replace (args (with_learn l st)) with (args st) by reflexivity.
  replace (fs (with_learn l st)) with (fs st) by reflexivity.
  destruct (run (seed_state w sd st)); reflexivity.
Qed.

Lemma for_each_ignores_learn w seeds : ignores_learn (for_each seeds (run_seed w)).
Proof.
  induction seeds as [|sd seeds IH]; intros l st; [reflexivity|].
  rewrite !for_each_cons, (run_seed_ignores_learn w sd l st).
  destruct (run_seed w sd st) as [[[u|e] st1] es1];
    unfold outcome, final_state, events; cbn [fst snd]; [|reflexivity].
  rewrite IH. unfold prepend, outcome, final_state, events. reflexivity.
Qed.

Lemma check_paths_ignores_learn : ignores_learn check_paths.
Proof.
  intros l st. rewrite !check_paths_eq.
  replace (args (with_learn l st)) with (args st) by reflexivity.
  replace (fs (with_learn l st)) with (fs st) by reflexivity.
  destruct (negb (model_path_ok (fs st) (args st))); [reflexivity|].
  destruct (negb (log_dir_ok (fs st) (args st))); reflexivity.
Qed.

Lemma wandb_setup_ignores_learn w : ignores_learn (wandb_setup w).
Proof.
  intros l st. rewrite !wandb_setup_eq.
  replace (args (with_learn l st)) with (args st) by reflexivity.
  destruct (no_wandb (args st)); [reflexivity|].
  destruct (environ w "WANDB_API_KEY"); reflexivity.
Qed.

(** With tracking the loop runs through the whole seed list: one call of
    [model.learn] per seed, each with [total_timesteps = args.timesteps], and
    one finalization per seed. *)
Lemma tracked_loop w seeds st :
  no_wandb (args st) = false ->
  outcome (for_each seeds (run_seed w) st) = Ok tt
  /\ map total_timesteps_of
       (filter is_learn (events (for_each seeds (run_seed w) st)))
     = map (fun _ => Some (timesteps (args st))) seeds
  /\ length (filter is_finish (events (for_each seeds (run_seed w) st)))
     = length seeds.
Proof.
  revert st. induction seeds as [|sd seeds IH]; intros st Hnw.
  - repeat split.
  - rewrite for_each_cons, (tracked_iteration w sd st Hnw).
    assert (Hnw' : no_wandb (args (seed_state w sd st)) = false)
      by (rewrite seed_state_args; exact Hnw).
    destruct (IH (seed_state w sd st) Hnw') as (Ho & Hl & Hf).
    rewrite seed_state_args in Hl.
    unfold prepend. rewrite outcome_triple, !events_triple.
    rewrite !filter_app, seed_events_learn, seed_events_finish.
    cbn [filter is_learn is_finish app map length total_timesteps_of
           learn_event].
    rewrite Hl, Hf. repeat split. exact Ho.
Qed.

(** ** C3: what reaches the model *)

(** C3, the claim as stated fails: on
    [--seed 1 2 --env_name Pendulum-v1 --model_path checkpoint.zip --ent_coef 0.5]
    the two model calls (one per seed) are calls of the loader, which is
    handed no keyword at all, and the dictionary [sac_kwargs] that this
    branch builds holds the entropy coefficient of the checkpoint, 0.1, not
    the 0.5 of the command line. *)
Lemma checkpoint_hyperparameters_not_forwarded :
  let a :=
    set_ent_coef float_0_5 (set_model_path (Some "checkpoint.zip") sample_args) in
  let evs := events (run_script sample_world a sample_files) in
  ent_coef a = float_0_5
  /\ map handed_kwargs (filter (fun e => is_load e || is_SAC_new e) evs)
     = [Some []; Some []]
  /\ map logged_ent_coef (filter is_config_update evs)
     = [Some (VFloat float_0_1); Some (VFloat float_0_1)].
Proof. vm_compute. repeat split. Qed.

(** C3, amended: the flags reach the model unchanged when a new model is
    built.  Without a (non-empty) [model_path], the constructor is called
    with a keyword dictionary that holds the environment, the seed of the
    iteration and the values of [--ent_coef], [--learning_starts],
    [--device], [--learning_rate] and [--buffer_size] as given; with
    [--mlp_actor] that is all, and otherwise [policy_kwargs] holds
    [--joint_fail_prob] and, under [actor_cspn_args], the CSPN flags as given,
    except that [--no_relu] is turned into the activation class
    ([nn.Identity] when set, [nn.ReLU] when not).  With a [model_path], the
    loader is called with the path and the environment only; the seed and
    [--learning_starts] are then written to the loaded model, every other
    attribute of the model is the checkpoint's, and the dictionary built from
    the model holds those: [--ent_coef], [--learning_rate] and [--device] are
    not used, and [buffer_size] is not in it. *)
Theorem flags_forwarded_to_new_model w sd env st :
  let a := args st in
  (model_path a = None \/ model_path a = Some "" ->
   exists cls policy kwargs,
     build_model w sd env st
     = (Ok (SAC_new w cls policy kwargs, kwargs), st,
        [call_SAC_new cls policy kwargs])
     /\ dict_get "env" kwargs = Some (VEnv env)
     /\ dict_get "seed" kwargs = Some (VInt sd)
     /\ dict_get "ent_coef" kwargs = Some (VFloat (ent_coef a))
     /\ dict_get "learning_starts" kwargs = Some (VInt (learning_starts a))
     /\ dict_get "device" kwargs = Some (VStr (device a))
     /\ dict_get "learning_rate" kwargs = Some (VFloat (learning_rate a))
     /\ dict_get "buffer_size" kwargs = Some (VInt (buffer_size a))
     /\ (mlp_actor a = true ->
         cls = EntropyLoggingSAC /\ dict_get "policy_kwargs" kwargs = None)
     /\ (mlp_actor a = false ->
         cls = CspnSAC
         /\ exists pk ca,
              dict_get "policy_kwargs" kwargs = Some (VDict pk)
              /\ dict_get "joint_failure_prob" pk
                 = Some (VFloat (joint_fail_prob a))
              /\ dict_get "actor_cspn_args" pk = Some (VDict ca)
              /\ dict_get "R" ca = Some (VInt (repetitions a))
              /\ dict_get "D" ca = Some (opt_int (cspn_depth a))
              /\ dict_get "I" ca = Some (VInt (num_dist a))
              /\ dict_get "S" ca = Some (VInt (num_sums a))
              /\ dict_get "dropout" ca = Some (VFloat (dropout a))
              /\ dict_get "feat_layers" ca = Some (opt_ints (feat_layers a))
              /\ dict_get "sum_param_layers" ca
                 = Some (opt_ints (sum_param_layers a))
              /\ dict_get "dist_param_layers" ca
                 = Some (opt_ints (dist_param_layers a))
              /\ dict_get "entropy_objective" ca = Some (opt_str (objective a))
              /\ dict_get "recurs_ent_approx_sample_size" ca
                 = Some (VInt (recurs_sample_size a))
              /\ dict_get "naive_ent_approx_sample_size" ca
                 = Some (VInt (naive_sample_size a))
              /\ dict_get "cond_layers_inner_act" ca
                 = Some (VClass (if no_relu a then "nn.Identity"
                                 else "nn.ReLU"))))
  /\ (forall p, model_path a = Some p -> p <> "" ->
      let loaded := CspnSAC_load w p env in
      exists model kwargs,
        build_model w sd env st
        = (Ok (model, kwargs), st, [call_CspnSAC_load p env])
        /\ model_seed model = VInt sd
        /\ model_learning_starts model = VInt (learning_starts a)
        /\ model_env model = model_env loaded
        /\ model_verbose model = model_verbose loaded
        /\ model_ent_coef model = model_ent_coef loaded
        /\ model_device model = model_device loaded
        /\ model_learning_rate model = model_learning_rate loaded
        /\ model_actor model = model_actor loaded
        /\ dict_get "seed" kwargs = Some (VInt sd)
        /\ dict_get "learning_starts" kwargs = Some (VInt (learning_starts a))
        /\ dict_get "ent_coef" kwargs = Some (model_ent_coef loaded)
        /\ dict_get "device" kwargs = Some (model_device loaded)
        /\ dict_get "learning_rate" kwargs = Some (model_learning_rate loaded)
        /\ dict_get "buffer_size" kwargs = None).
Proof.
  intros a. split.
  - intros Hnone. rewrite build_model_eq. fold a.
    assert (Hbm : built_model w a sd env = new_model w a sd env)
      by (unfold built_model; destruct Hnone as [H|H]; rewrite H; reflexivity).
    assert (Hme : model_events a sd env = new_model_events a sd env)
      by (unfold model_events; destruct Hnone as [H|H]; rewrite H; reflexivity).
    rewrite Hbm, Hme. unfold new_model, new_model_events.
    destruct (mlp_actor a) eqn:Emlp.
    + exists EntropyLoggingSAC, (VStr "MlpPolicy"), (new_sac_kwargs a sd env).
      repeat split; try reflexivity; discriminate.
    + exists CspnSAC, (VClass "CspnPolicy"), (cspn_sac_kwargs a sd env).
      repeat split; try reflexivity; try discriminate.
      exists (policy_kwargs_of a env), (cspn_args_of a).
      repeat split. unfold cspn_args_of. simpl.
      destruct (no_relu a); reflexivity.
  - intros p Hp Hne loaded. apply String.eqb_neq in Hne.
    rewrite build_model_eq. fold a.
    unfold built_model, model_events. rewrite Hp, Hne. cbn [negb].
    exists (loaded_model w a sd env p),
      (loaded_sac_kwargs (loaded_model w a sd env p)).
    repeat split.
Qed.

(** First iteration of [--seed 1 2 --env_name Pendulum-v1]: a new CSPN model,
    whose constructor receives the default entropy coefficient 0.1. *)
Lemma flags_forwarded_to_new_model_witness :
  exists cls policy kwargs,
    events (build_model sample_world 1 (Unwrapped (coerced_env sample_world
              (defaulted sample_args) "run")) sample_state)
    = [call_SAC_new cls policy kwargs]
    /\ dict_get "ent_coef" kwargs = Some (VFloat float_0_1).
Proof.
  destruct (proj1 (flags_forwarded_to_new_model sample_world 1
                     (Unwrapped (coerced_env sample_world
                        (defaulted sample_args) "run")) sample_state)
              (or_introl eq_refl))
    as (cls & policy & kwargs & Hb & _ & _ & He & _).
  exists cls, policy, kwargs. split; [rewrite Hb; reflexivity|exact He].
Defined.

(** * Further properties of the script *)

(** ** The loop, event by event *)

Lemma for_each_filter_nil w f seeds st :
  (forall sd st', filter f (events (run_seed w sd st')) = []) ->
  filter f (events (for_each seeds (run_seed w) st)) = [].
Proof.
  intros Hf. revert st. induction seeds as [|sd seeds IH]; intros st;
    [reflexivity|].
  rewrite for_each_cons. pose proof (Hf sd st) as H.
  destruct (run_seed w sd st) as [[[u|e] st1] es1]; rewrite events_triple in H.
  - unfold prepend. rewrite events_triple, filter_app, H, IH. reflexivity.
  - rewrite events_triple. exact H.
Qed.


(** ** Tracking *)

Lemma seed_events_login w a sd log_path :
  filter is_login (seed_events w a sd log_path) = [].
Proof. split_events; reflexivity. Qed.

Lemma run_seed_login w sd st : filter is_login (events (run_seed w sd st)) = [].
Proof.
  rewrite run_seed_filter by reflexivity. apply seed_events_login.
Qed.

(** X3: with tracking, once the checks have passed, the script reads
    [WANDB_API_KEY] from the environment.  Without the variable it ends with
    a [KeyError] before anything is called or created; with it, the login
    with that key is the first call of the script and the only login. *)
Theorem login_comes_first_and_once w a files :
  outcome ((default_save_interval ;; check_timesteps ;; check_paths)
             (after_parse a files)) = Ok tt ->
  no_wandb a = false ->
  (environ w "WANDB_API_KEY" = None ->
   outcome (run_script w a files) = Raise (KeyError "WANDB_API_KEY")
   /\ events (run_script w a files) = []
   /\ fs (final_state (run_script w a files)) = files)
  /\ (forall key, environ w "WANDB_API_KEY" = Some key ->
      exists rest,
        events (run_script w a files) = call_wandb_login key :: rest
        /\ filter is_login rest = []).
Proof.
  intros Hchecks Hnw.
  apply checks_outcome in Hchecks. destruct Hchecks as (H1 & H2 & H3).
  rewrite run_script_eq, H1, H2, H3, Hnw. cbn [negb]. split.
  - intros Hkey. rewrite Hkey. repeat split.
  - intros key Hkey. rewrite Hkey.
    exists (events (for_each (seed a) (run_seed w) (checked_state a files))).
    split; [reflexivity|].
    apply for_each_filter_nil. intros sd st'. apply run_seed_login.
Qed.

(** [--seed 1 2 --env_name Pendulum-v1] in a world without the variable. *)
Lemma login_comes_first_and_once_witness :
  outcome (run_script
             (mkWorld (fun _ => None) (platform_node sample_world)
                (env_observation_space sample_world)
                (non_existing_folder_name sample_world)
                (CspnSAC_load sample_world) (SAC_new sample_world))
             sample_args sample_files)
  = Raise (KeyError "WANDB_API_KEY").
Proof.
  refine (proj1 (proj1 (login_comes_first_and_once
            (mkWorld (fun _ => None) (platform_node sample_world)
               (env_observation_space sample_world)
               (non_existing_folder_name sample_world)
               (CspnSAC_load sample_world) (SAC_new sample_world))
            sample_args sample_files _ _) _)); reflexivity.
Defined.

Lemma seed_events_untracked w a sd log_path :
  no_wandb a = true ->
  filter is_tracking_call (seed_events w a sd log_path) = []
  /\ pick learn_callback (seed_events w a sd log_path) = [None].
Proof.
  intros Hnw.
  unfold seed_events, dirs_events, tracking_events, env_events, model_events,
    new_model_events, callback_events, logger_events, learn_event,
    built_callback.
  rewrite Hnw.
  repeat match goal with
         | |- context [match ?x with _ => _ end] =>
             match type of x with
             | bool => destruct x eqn:?
             | option _ => destruct x eqn:?
             | Space => destruct x eqn:?
             | DType => destruct x eqn:?
             end
         end; split; reflexivity.
Qed.

(** X4: with [--no_wandb] the script makes no call into the tracking
    library at all: no login, no [wandb.init], no config update, no
    [WandbCallback], no [run.finish]; and every call of [model.learn] gets
    [callback=None]. *)
Theorem no_wandb_makes_no_tracking_call w a files :
  no_wandb a = true ->
  filter is_tracking_call (events (run_script w a files)) = []
  /\ Forall (fun cb => cb = None)
       (pick learn_callback (events (run_script w a files))).
Proof.
  intros Hnw. rewrite run_script_eq.
  destruct (negb (timesteps_ok a)); [split; [reflexivity|constructor]|].
  destruct (negb (model_path_ok files a)); [split; [reflexivity|constructor]|].
  destruct (negb (log_dir_ok files a)); [split; [reflexivity|constructor]|].
  rewrite Hnw. destruct (seed a) as [|sd rest];
    [split; [reflexivity|constructor]|].
  rewrite untracked_loop; [|exact Hnw|reflexivity].
  rewrite events_triple.
  destruct (seed_events_untracked w (args (checked_state a files)) sd
              (log_path_of w (args (checked_state a files))
                 (fs (checked_state a files)) sd) Hnw) as [Ht Hc].
  rewrite Ht, Hc. split; [reflexivity|]. constructor; [reflexivity|constructor].
Qed.

(** [--seed 1 2 --env_name Pendulum-v1 --no_wandb] *)
Lemma no_wandb_makes_no_tracking_call_witness :
  filter is_tracking_call
    (events (run_script sample_world (set_no_wandb true sample_args)
               sample_files)) = [].
Proof.
  exact (proj1 (no_wandb_makes_no_tracking_call sample_world
                  (set_no_wandb true sample_args) sample_files eq_refl)).
Defined.

Lemma pick_app {B} (f : Event -> option B) l1 l2 :
  pick f (l1 ++ l2) = (pick f l1 ++ pick f l2)%list.
Proof.
  induction l1 as [|e l1 IH]; [reflexivity|]. simpl.
  destruct (f e); rewrite IH; reflexivity.
Qed.

(** ** The cadence of videos and checkpoints *)

Lemma record_video_trigger_eq a st x :
  args st = defaulted a ->
  record_video_trigger x st
  = if effective_save_interval a =? 0 then (Raise ZeroDivisionError, st, [])
    else (Ok (x mod effective_save_interval a =? 0), st, []).
Proof.
  intros Ha. unfold record_video_trigger, bind, get_args.
  rewrite Ha, save_interval_defaulted. unfold as_int, ret, py_mod.
  destruct (effective_save_interval a =? 0); reflexivity.
Qed.

Lemma seed_events_callback w a sd log_path cb :
  In (call_WandbCallback cb) (seed_events w a sd log_path) ->
  cb = mkWandbCallback 10000 (models_path_of log_path) (save_interval a) 2.
Proof.
  unfold seed_events. cbv zeta. rewrite !in_app_iff.
  intros [H|[H|[H|[H|[H|[H|H]]]]]].
  - unfold dirs_events in H. in_block H.
  - unfold tracking_events in H. in_block H.
  - unfold env_events in H. in_block H.
  - unfold model_events, new_model_events in H. in_block H.
  - unfold callback_events in H. in_block H. congruence.
  - unfold logger_events in H. in_block H.
  - unfold learn_event in H. in_block H.
Qed.

(** X6: while the loop runs ([args] is the parsed namespace after line 75)
    and [timesteps] is not 0, the video trigger never fails, and it fires
    exactly on the step counts that are multiples of [save_interval] (the
    given value, or [timesteps] when none or 0 was given): at step 0 in
    particular.  Every [WandbCallback] of an iteration is built with that
    same number as [model_save_freq], so checkpoints and videos have the same
    cadence. *)
Theorem video_trigger_fires_on_multiples w a sd st :
  args st = defaulted a ->
  timesteps a <> 0 ->
  (forall x,
     exists b,
       record_video_trigger x st = (Ok b, st, [])
       /\ (b = true <-> exists k, x = k * effective_save_interval a))
  /\ record_video_trigger 0 st = (Ok true, st, [])
  /\ (forall cb,
        In (call_WandbCallback cb) (events (run_seed w sd st)) ->
        model_save_freq cb = Some (effective_save_interval a)).
Proof.
  intros Ha Hnz.
  assert (Hsi : effective_save_interval a <> 0)
    by (intros H; apply effective_save_interval_zero in H; contradiction).
  pose proof Hsi as Hsib. apply Z.eqb_neq in Hsib.
  split; [|split].
  - intros x. rewrite (record_video_trigger_eq a st x Ha), Hsib.
    eexists. split; [reflexivity|].
    rewrite Z.eqb_eq. rewrite Z.mod_divide by exact Hsi. reflexivity.
  - rewrite (record_video_trigger_eq a st 0 Ha), Hsib.
    rewrite Z.mod_0_l by exact Hsi. reflexivity.
  - intros cb Hin. apply run_seed_In_inv in Hin.
    destruct Hin as [Hin|[r Hr]]; [|discriminate Hr].
    apply seed_events_callback in Hin. subst cb. cbn [model_save_freq].
    rewrite Ha. apply save_interval_defaulted.
Qed.

(** [--seed 1 2 --env_name Pendulum-v1]: a video at step 0. *)
Lemma video_trigger_fires_on_multiples_witness :
  record_video_trigger 0 sample_state = (Ok true, sample_state, []).
Proof.
  refine (proj1 (proj2 (video_trigger_fires_on_multiples sample_world
            sample_args 1 sample_state eq_refl _))).
  vm_compute. discriminate.
Defined.

Lemma seed_events_video w a sd log_path :
  no_video a = false ->
  In (call_VecVideoRecorder (coerced_env w a log_path) (video_path_of log_path)
        (save_interval a) 200)
    (seed_events w a sd log_path).
Proof.
  intros Hv. unfold seed_events. cbv zeta. rewrite !in_app_iff.
  right. right. left. unfold env_events. rewrite Hv.
  right. apply in_or_app. right. left. reflexivity.
Qed.

(** X7: with [--timesteps 0] and no [save_interval] (or 0), line 75 sets
    [save_interval] to 0 and the checks of lines 77-82 are skipped; unless
    [--no_video] is given, every iteration still wraps the environment in a
    video recorder, and the trigger it hands over fails with
    [ZeroDivisionError] on every step count. *)
Theorem video_trigger_divides_by_zero w a sd st :
  args st = defaulted a ->
  timesteps a = 0 ->
  truthy_int (save_interval a) = false ->
  outcome ((default_save_interval ;; check_timesteps) (after_parse a (fs st)))
  = Ok tt
  /\ (forall x, record_video_trigger x st = (Raise ZeroDivisionError, st, []))
  /\ (no_video a = false ->
      exists venv folder,
        In (call_VecVideoRecorder venv folder (Some 0) 200)
          (events (run_seed w sd st))).
Proof.
  intros Ha H0 Hsi.
  assert (Hz : effective_save_interval a = 0).
  { unfold effective_save_interval. unfold truthy_int in Hsi.
    destruct (save_interval a) as [z|]; [|exact H0].
    destruct (z =? 0); [exact H0|discriminate]. }
  split; [|split].
  - rewrite (bind_Ok _ _ _ _ _ _ (default_save_interval_eq _)), prepend_nil.
    unfold after_parse, with_args. cbn [args learn run fs].
    rewrite check_timesteps_eq. unfold timesteps_ok. rewrite H0. reflexivity.
  - intros x. rewrite (record_video_trigger_eq a st x Ha), Hz. reflexivity.
  - intros Hv. do 2 eexists. apply run_seed_In.
    pose proof (seed_events_video w (args st) sd
                  (log_path_of w (args st) (fs st) sd)) as H.
    rewrite Ha in H at 1 2. rewrite Ha, save_interval_defaulted, Hz in H.
    rewrite Ha. apply H. exact Hv.
Qed.

(** [--seed 1 2 --env_name Pendulum-v1 --timesteps 0] *)
Lemma video_trigger_divides_by_zero_witness :
  record_video_trigger 200
    (after_parse (defaulted (set_timesteps 0 sample_args)) sample_files)
  = (Raise ZeroDivisionError,
     after_parse (defaulted (set_timesteps 0 sample_args)) sample_files, []).
Proof.
  exact (proj1 (proj2 (video_trigger_divides_by_zero sample_world
                         (set_timesteps 0 sample_args) 1
                         (after_parse (defaulted (set_timesteps 0 sample_args))
                            sample_files)
                         eq_refl eq_refl eq_refl)) 200).
Defined.

(** ** Names and paths *)

Lemma to_int_not_nil z : Z.to_int z <> Decimal.Pos Decimal.Nil
                         /\ Z.to_int z <> Decimal.Neg Decimal.Nil.
Proof.
  destruct z as [|p|p]; simpl; split; try discriminate;
    intros H; inversion H as [Hp]; apply (DecimalPos.Unsigned.to_uint_nonnil p Hp).
Qed.

Lemma str_of_int_inj n m : str_of_int n = str_of_int m -> n = m.
Proof.
  unfold str_of_int. intros H.
  apply (f_equal NilZero.int_of_string) in H.
  destruct (to_int_not_nil n) as [Hn1 Hn2].
  destruct (to_int_not_nil m) as [Hm1 Hm2].
  rewrite !NilZero.isi in H by assumption.
  inversion H as [Hi]. apply DecimalZ.to_int_inj. exact Hi.
Qed.

Lemma append_cancel_l (s a b : string) : s ++ a = s ++ b -> a = b.
Proof.
  induction s as [|c s IH]; simpl; intros H; [exact H|].
  inversion H. auto.
Qed.

(** X8: the seed can be read back from the name of a run: two different
    seeds give two different names [<run_name>_s<seed>] (the name of the
    tracking run) and two different [tb_log_name]s
    [<proj_name>/<run_name>_s<seed>]. *)
Theorem run_names_differ_by_seed a sd1 sd2 :
  sd1 <> sd2 ->
  run_name_seed_of a sd1 <> run_name_seed_of a sd2
  /\ proj_name a ++ "/" ++ run_name_seed_of a sd1
     <> proj_name a ++ "/" ++ run_name_seed_of a sd2.
Proof.
  intros Hne.
  assert (H : run_name_seed_of a sd1 <> run_name_seed_of a sd2).
  { unfold run_name_seed_of. intros H.
    apply append_cancel_l, append_cancel_l, str_of_int_inj in H.
    contradiction. }
  split; [exact H|].
  intros H'. apply append_cancel_l, append_cancel_l in H'. contradiction.
Qed.

(** Seeds 1 and 2 of the sample command line. *)
Lemma run_names_differ_by_seed_witness :
  run_name_seed_of sample_args 1 <> run_name_seed_of sample_args 2.
Proof.
  refine (proj1 (run_names_differ_by_seed sample_args 1 2 _)). discriminate.
Defined.

(** ** The file system *)

Lemma seed_events_made_dir w a sd log_path :
  pick made_dir (seed_events w a sd log_path) = run_dirs log_path.
Proof. split_events; reflexivity. Qed.

Lemma run_seed_made_dir w sd st :
  pick made_dir (events (run_seed w sd st))
  = run_dirs (log_path_of w (args st) (fs st) sd).
Proof.
  rewrite run_seed_eq.
  destruct (run (seed_state w sd st)); rewrite events_triple.
  - rewrite pick_app, seed_events_made_dir. simpl. reflexivity.
  - apply seed_events_made_dir.
Qed.












Lemma precedes_app {A} (x y : A) l1 l2 :
  In x l1 -> In y l2 -> precedes x y (l1 ++ l2).
Proof.
  intros Hx Hy.
  apply in_split in Hx. destruct Hx as (a1 & a2 & ->).
  apply in_split in Hy. destruct Hy as (b1 & b2 & ->).
  exists a1, (a2 ++ b1)%list, b2.
  rewrite <- ?app_assoc. simpl. rewrite <- ?app_assoc. reflexivity.
Qed.

Lemma seed_events_handed_dir w a sd log_path e d :
  In e (tracking_events a sd log_path
        ++ env_events w a log_path
        ++ model_events a sd (built_env w a log_path)
        ++ callback_events w a sd log_path
             (snd (built_model w a sd (built_env w a log_path)))
        ++ logger_events log_path
             (fst (built_model w a sd (built_env w a log_path)))
        ++ [learn_event a sd log_path
              (fst (built_model w a sd (built_env w a log_path)))])%list ->
  handed_dir e = Some d ->
  In d (run_dirs log_path).
Proof.
  rewrite !in_app_iff. unfold run_dirs.
  intros [H|[H|[H|[H|[H|H]]]]] Hd.
  - unfold tracking_events in H. in_block H. inversion Hd. auto.
  - unfold env_events in H. in_block H; inversion Hd; auto.
  - unfold model_events, new_model_events in H. in_block H.
  - unfold callback_events in H. in_block H. inversion Hd. auto.
  - unfold logger_events in H. in_block H; inversion Hd; auto.
  - unfold learn_event in H. in_block H.
Qed.

(** X10: every directory that an iteration hands to a library to write into
    (the run directory of [wandb.init] and of the logger, the monitor
    directory of [make_vec_env], the video folder of the recorder, the model
    folder of [WandbCallback]) is one of the four directories of the run; the
    call of [os.makedirs] for it comes earlier in the same iteration, and the
    directory is in the file system when the iteration is over. *)
Theorem handed_directories_are_made_first w sd st e d :
  In e (events (run_seed w sd st)) ->
  handed_dir e = Some d ->
  precedes (call_os_makedirs d true) e (events (run_seed w sd st))
  /\ In d (fs (final_state (run_seed w sd st))).
Proof.
  intros He Hd.
  set (a := args st). set (log_path := log_path_of w a (fs st) sd).
  assert (Hrest : In e (tracking_events a sd log_path
        ++ env_events w a log_path
        ++ model_events a sd (built_env w a log_path)
        ++ callback_events w a sd log_path
             (snd (built_model w a sd (built_env w a log_path)))
        ++ logger_events log_path
             (fst (built_model w a sd (built_env w a log_path)))
        ++ [learn_event a sd log_path
              (fst (built_model w a sd (built_env w a log_path)))])%list).
  { apply run_seed_In_inv in He. destruct He as [He|[r Hr]].
    - fold a in He. fold log_path in He. unfold seed_events in He.
      cbv zeta in He. apply in_app_or in He. destruct He as [He|He];
        [|exact He].
      unfold dirs_events in He. simpl in He.
      repeat match type of He with
             | _ \/ _ => destruct He as [He|He]
             end; try contradiction; subst e; discriminate Hd.
    - subst e. discriminate Hd. }
  pose proof (seed_events_handed_dir w a sd log_path e d Hrest Hd) as Hin.
  split.
  - apply run_seed_precedes_gen. fold a. fold log_path.
    unfold seed_events. cbv zeta. apply precedes_app; [|exact Hrest].
    unfold dirs_events. do 3 right.
    change (In (call_os_makedirs d true)
              (map (fun d => call_os_makedirs d true) (run_dirs log_path))).
    apply (in_map (fun x => call_os_makedirs x true)). exact Hin.
  - rewrite run_seed_final_state, seed_state_fs. fold a. fold log_path.
    unfold made_dirs. apply In_fold_mkdir. right. exact Hin.
Qed.

(** The logger of the first iteration of the sample command line. *)
Lemma handed_directories_are_made_first_witness :
  In "../../cspn_rl_experiments/test_proj/test_run_s10"
    (fs (final_state (run_seed sample_world 1 sample_state))).
Proof.
  refine (proj2 (handed_directories_are_made_first sample_world 1 sample_state
            (call_configure "../../cspn_rl_experiments/test_proj/test_run_s10"
               ["stdout"; "csv"; "tensorboard"])
            "../../cspn_rl_experiments/test_proj/test_run_s10" _ _)).
  - vm_compute. do 14 right. left. reflexivity.
  - reflexivity.
Defined.

(** ** What the model and the tracker are told *)

Lemma coerced_space_shape sp : space_shape (coerced_space sp) = space_shape sp.
Proof. destruct sp as [lo hi dt| | |]; [destruct dt|..]; reflexivity. Qed.

Lemma seed_events_SAC_new_In w a sd log_path cls pol kw :
  In (call_SAC_new cls pol kw) (seed_events w a sd log_path) ->
  truthy_str (model_path a) = false
  /\ built_model w a sd (built_env w a log_path)
     = new_model w a sd (built_env w a log_path)
  /\ ((mlp_actor a = true /\ cls = EntropyLoggingSAC
       /\ kw = new_sac_kwargs a sd (built_env w a log_path))
      \/ (mlp_actor a = false /\ cls = CspnSAC
          /\ kw = cspn_sac_kwargs a sd (built_env w a log_path))).
Proof.
  unfold seed_events. cbv zeta. rewrite !in_app_iff.
  intros [H|[H|[H|[H|[H|[H|H]]]]]].
  - unfold dirs_events in H. in_block H.
  - unfold tracking_events in H. in_block H.
  - unfold env_events in H. in_block H.
  - unfold model_events, new_model_events, built_model, new_model,
      truthy_str in *.
    destruct (model_path a) as [p|]; [destruct (p =? "")%string|];
      cbn [negb] in *;
      destruct (mlp_actor a); simpl in H;
      destruct H as [H|[]]; inversion H; auto 10.
  - unfold callback_events in H. in_block H.
  - unfold logger_events in H. in_block H.
  - unfold learn_event in H. in_block H.
Qed.

(** X11: when an iteration builds a CSPN model, the feature extractor in
    [policy_kwargs] is [NatureCNN] exactly when the observation space that
    [make_vec_env] returned has more than one dimension, and
    [FlattenExtractor] otherwise; the replacement of a float64 space by a
    float32 one does not change the choice. *)
Theorem features_extractor_follows_dimensions w sd st pol kw :
  In (call_SAC_new CspnSAC pol kw) (events (run_seed w sd st)) ->
  exists pk,
    dict_get "policy_kwargs" kw = Some (VDict pk)
    /\ dict_get "features_extractor_class" pk
       = Some (VClass
                 (if (1 <? length (space_shape
                                     (env_observation_space w
                                        (env_name (args st)))))%nat
                  then "NatureCNN" else "FlattenExtractor")).
Proof.
  intros Hin. apply run_seed_In_inv in Hin.
  destruct Hin as [Hin|[r Hr]]; [|discriminate Hr].
  apply seed_events_SAC_new_In in Hin.
  destruct Hin as (_ & _ & [(_ & Hc & _)|(_ & _ & Hkw)]); [discriminate Hc|].
  subst kw. eexists. split; [reflexivity|].
  unfold policy_kwargs_of. rewrite built_env_space, coerced_space_shape.
  simpl.
  destruct (1 <? length (space_shape
                           (env_observation_space w (env_name (args st)))))%nat;
    reflexivity.
Qed.

Lemma dict_get_set k k' v d :
  dict_get k (dict_set k' v d)
  = if (k =? k')%string then Some v else dict_get k d.
Proof.
  induction d as [|[k0 v0] d IH]; simpl.
  - reflexivity.
  - destruct (k' =? k0)%string eqn:E; simpl.
    + apply String.eqb_eq in E. subst k0.
      destruct (k =? k')%string; reflexivity.
    + rewrite IH. destruct (k =? k0)%string eqn:E0; [|reflexivity].
      apply String.eqb_eq in E0. subst k0.
      rewrite String.eqb_sym in E. rewrite E. reflexivity.
Qed.

Lemma seed_events_config_update w a sd log_path r d :
  In (call_run_config_update r d) (seed_events w a sd log_path) ->
  no_wandb a = false
  /\ r = tracking_run a sd log_path
  /\ d = dict_set "machine" (VStr (platform_node w))
           (snd (built_model w a sd (built_env w a log_path))).
Proof.
  unfold seed_events. cbv zeta. rewrite !in_app_iff.
  intros [H|[H|[H|[H|[H|[H|H]]]]]].
  - unfold dirs_events in H. in_block H.
  - unfold tracking_events in H. in_block H.
  - unfold env_events in H. in_block H.
  - unfold model_events, new_model_events in H. in_block H.
  - unfold callback_events in H.
    destruct (no_wandb a); simpl in H; [contradiction|].
    destruct H as [H|[H|[]]]; [|discriminate H].
    inversion H. auto.
  - unfold logger_events in H. in_block H.
  - unfold learn_event in H. in_block H.
Qed.

(** X12: the configuration an iteration logs with [run.config.update] goes to
    the run that [wandb.init] returned in this iteration, holds the name of
    the machine under [machine], and on every other key agrees with
    [sac_kwargs], the dictionary that is unpacked into the constructor call
    of this iteration.  The policy, which the constructor gets beside that
    dictionary (positionally at line 180, as the keyword [policy] at
    line 201), is not logged: the configuration has no key [policy]. *)
Theorem logged_config_is_the_constructor_kwargs w sd st r d :
  In (call_run_config_update r d) (events (run_seed w sd st)) ->
  In (call_wandb_init r) (events (run_seed w sd st))
  /\ dict_get "machine" d = Some (VStr (platform_node w))
  /\ (forall cls pol kw k,
        In (call_SAC_new cls pol kw) (events (run_seed w sd st)) ->
        k <> "machine" ->
        dict_get k d = dict_get k kw)
  /\ dict_get "policy" d = None.
Proof.
  intros Hin. apply run_seed_In_inv in Hin.
  destruct Hin as [Hin|[r' Hr]]; [|discriminate Hr].
  apply seed_events_config_update in Hin. destruct Hin as (Hnw & -> & ->).
  split; [|split; [|split]].
  4:{ rewrite dict_get_set. cbn [String.eqb Ascii.eqb Bool.eqb].
      unfold built_model, new_model, cspn_sac_kwargs.
      destruct (model_path (args st)) as [p|];
        [destruct (negb (p =? "")%string)|];
        try destruct (mlp_actor (args st)); reflexivity. }
  - apply run_seed_In. unfold seed_events. cbv zeta. rewrite !in_app_iff.
    right. left. unfold tracking_events. rewrite Hnw. left. reflexivity.
  - rewrite dict_get_set. reflexivity.
  - intros cls pol kw k Hk Hne. apply run_seed_In_inv in Hk.
    destruct Hk as [Hk|[r' Hr]]; [|discriminate Hr].
    apply seed_events_SAC_new_In in Hk. destruct Hk as (_ & Hbm & Hcase).
    rewrite dict_get_set. apply String.eqb_neq in Hne. rewrite Hne, Hbm.
    unfold new_model.
    destruct Hcase as [(Hm & _ & ->)|(Hm & _ & ->)]; rewrite Hm; reflexivity.
Qed.

(** The constructor call of the first iteration of the sample command line:
    the observation space has one dimension. *)
Lemma features_extractor_follows_dimensions_witness :
  exists pk,
    dict_get "policy_kwargs"
      (cspn_sac_kwargs (defaulted sample_args) 1
         (built_env sample_world (defaulted sample_args)
            "../../cspn_rl_experiments/test_proj/test_run_s10"))
    = Some (VDict pk)
    /\ dict_get "features_extractor_class" pk
       = Some (VClass "FlattenExtractor").
Proof.
  refine (features_extractor_follows_dimensions sample_world 1 sample_state
            (VClass "CspnPolicy")
            (cspn_sac_kwargs (defaulted sample_args) 1
               (built_env sample_world (defaulted sample_args)
                  "../../cspn_rl_experiments/test_proj/test_run_s10")) _).
  vm_compute. do 11 right. left. reflexivity.
Defined.

(** The config update of the first iteration of the sample command line. *)
Lemma logged_config_is_the_constructor_kwargs_witness :
  dict_get "machine"
    (dict_set "machine" (VStr "host")
       (cspn_sac_kwargs (defaulted sample_args) 1
          (built_env sample_world (defaulted sample_args)
             "../../cspn_rl_experiments/test_proj/test_run_s10")))
  = Some (VStr "host").
Proof.
  refine (proj1 (proj2 (logged_config_is_the_constructor_kwargs sample_world 1
            sample_state
            (tracking_run (defaulted sample_args) 1
               "../../cspn_rl_experiments/test_proj/test_run_s10")
            (dict_set "machine" (VStr "host")
               (cspn_sac_kwargs (defaulted sample_args) 1
                  (built_env sample_world (defaulted sample_args)
                     "../../cspn_rl_experiments/test_proj/test_run_s10")))
            _))).
  vm_compute. do 12 right. left. reflexivity.
Defined.

(** ** Which check is reported, and where the directories go *)

(** X13: the checks are made in the order timesteps, [model_path],
    [log_dir], and the first one that fails is the one reported.  A total
    below [save_interval] is reported as such whatever the paths are; a
    total that is not a multiple likewise; a missing [model_path] is
    reported even when [log_dir] is missing too; and a missing [log_dir] is
    reported when everything before it was in order. *)
Theorem first_failing_check_is_reported w a files :
  (timesteps a <> 0 -> timesteps a < effective_save_interval a ->
   outcome (run_script w a files)
   = Raise (AssertionError
              "Total timesteps cannot be lower than save_interval!"))
  /\ (timesteps a <> 0 -> effective_save_interval a <= timesteps a ->
      timesteps a mod effective_save_interval a <> 0 ->
      outcome (run_script w a files)
      = Raise (AssertionError
                 "save_interval must be a divisor of total timesteps."))
  /\ (outcome ((default_save_interval ;; check_timesteps)
                 (after_parse a files)) = Ok tt ->
      forall p, model_path a = Some p -> p <> "" ->
        os_path_exists files p = false ->
        outcome (run_script w a files)
        = Raise (AssertionError ("The model_path doesn't exist! " ++ p)))
  /\ (outcome ((default_save_interval ;; check_timesteps)
                 (after_parse a files)) = Ok tt ->
      (forall p, model_path a = Some p -> p <> "" ->
         os_path_exists files p = true) ->
      log_dir a <> "" -> os_path_exists files (log_dir a) = false ->
      outcome (run_script w a files)
      = Raise (AssertionError ("The log_dir doesn't exist! " ++ log_dir a))).
Proof.
  split; [|split; [|split]].
  - intros Hnz Hlt. rewrite run_script_eq. unfold timesteps_ok, timesteps_msg.
    apply Z.eqb_neq in Hnz. rewrite Hnz.
    assert (Hge : (timesteps a >=? effective_save_interval a) = false)
      by (rewrite Z.geb_leb; apply Z.leb_gt; exact Hlt).
    rewrite Hge. reflexivity.
  - intros Hnz Hle Hmod. rewrite run_script_eq.
    unfold timesteps_ok, timesteps_msg.
    apply Z.eqb_neq in Hnz. rewrite Hnz.
    assert (Hge : (timesteps a >=? effective_save_interval a) = true)
      by (rewrite Z.geb_leb; apply Z.leb_le; exact Hle).
    apply Z.eqb_neq in Hmod. rewrite Hge, Hmod. reflexivity.
  - intros Ht p Hp Hne Hex. apply timesteps_checks_outcome in Ht.
    rewrite run_script_eq, Ht. cbn [negb].
    assert (Hm : model_path_ok files a = false)
      by (apply model_path_ok_false; exists p; auto).
    rewrite Hm. cbn [negb]. unfold model_path_msg. rewrite Hp. reflexivity.
  - intros Ht Hm Hne Hex. apply timesteps_checks_outcome in Ht.
    rewrite run_script_eq, Ht. cbn [negb].
    assert (Hmo : model_path_ok files a = true).
    { destruct (model_path_ok files a) eqn:E; [reflexivity|].
      apply model_path_ok_false in E. destruct E as (p & Hp & Hnp & Hex').
      rewrite (Hm p Hp Hnp) in Hex'. discriminate. }
    assert (Hl : log_dir_ok files a = false)
      by (apply log_dir_ok_false; auto).
    rewrite Hmo, Hl. reflexivity.
Qed.

(** [--timesteps 10 --save_interval 3 --model_path missing.zip]: two checks
    would fail, the one on the timesteps is reported. *)
Lemma first_failing_check_is_reported_witness :
  outcome (run_script sample_world
             (set_model_path (Some "missing.zip")
                (set_save_interval (Some 3) (set_timesteps 10 sample_args)))
             sample_files)
  = Raise (AssertionError "save_interval must be a divisor of total timesteps.").
Proof.
  refine (proj1 (proj2 (first_failing_check_is_reported sample_world
            (set_model_path (Some "missing.zip")
               (set_save_interval (Some 3) (set_timesteps 10 sample_args)))
            sample_files)) _ _ _).
  - vm_compute. discriminate.
  - vm_compute. discriminate.
  - vm_compute. discriminate.
Defined.

Lemma append_assoc (a b c : string) : (a ++ b) ++ c = a ++ (b ++ c).
Proof. induction a as [|x a IH]; simpl; [reflexivity|]. rewrite IH. reflexivity. Qed.

(** A relative second part is appended, with or without a separator. *)
Lemma os_path_join_relative a b :
  startswith_sep b = false ->
  os_path_join a b = a ++ b \/ os_path_join a b = a ++ "/" ++ b.
Proof.
  intros Hb. unfold os_path_join. rewrite Hb.
  destruct ((a =? "")%string || endswith_sep a); auto.
Qed.

(** X14: when neither [proj_name] nor the folder name that the helper
    returns starts with a slash, the run directory of an iteration lies
    under [log_dir]: its path is [log_dir] followed by something; and the
    three subdirectories always lie under the run directory. *)
Theorem run_directory_is_under_log_dir w a files sd :
  startswith_sep (proj_name a) = false ->
  startswith_sep
    (non_existing_folder_name w files (os_path_join (log_dir a) (proj_name a))
       (run_name_seed_of a sd)) = false ->
  (exists rest, log_path_of w a files sd = log_dir a ++ rest)
  /\ forall d,
       In d [monitor_path_of (log_path_of w a files sd);
             models_path_of (log_path_of w a files sd);
             video_path_of (log_path_of w a files sd)] ->
       exists rest, d = log_path_of w a files sd ++ rest.
Proof.
  intros Hp Hn. split.
  - unfold log_path_of. cbv zeta.
    destruct (os_path_join_relative
                (os_path_join (log_dir a) (proj_name a)) _ Hn) as [H|H];
      rewrite H;
      destruct (os_path_join_relative (log_dir a) _ Hp) as [H'|H'];
      rewrite H'; rewrite !append_assoc; eexists; reflexivity.
  - intros d [Hd|[Hd|[Hd|[]]]]; subst d;
      unfold monitor_path_of, models_path_of, video_path_of;
      match goal with
      | |- exists rest, os_path_join ?l ?b = _ =>
          destruct (os_path_join_relative l b eq_refl) as [H|H]; rewrite H;
          eexists; reflexivity
      end.
Qed.

(** First iteration of the sample command line. *)
Lemma run_directory_is_under_log_dir_witness :
  exists rest,
    log_path_of sample_world sample_args sample_files 1
    = "../../cspn_rl_experiments" ++ rest.
Proof.
  exact (proj1 (run_directory_is_under_log_dir sample_world sample_args
                  sample_files 1 eq_refl eq_refl)).
Defined.

(** X15: when [proj_name] starts with a slash, [os.path.join] drops
    [log_dir]: the directories an iteration creates are the same whatever
    [log_dir] is, although [log_dir] is the directory whose existence was
    checked. *)
Theorem absolute_proj_name_drops_log_dir w sd st other :
  startswith_sep (proj_name (args st)) = true ->
  outcome (make_run_dirs w sd (with_args (set_log_dir other (args st)) st))
  = outcome (make_run_dirs w sd st)
  /\ events (make_run_dirs w sd (with_args (set_log_dir other (args st)) st))
     = events (make_run_dirs w sd st)
  /\ fs (final_state
           (make_run_dirs w sd (with_args (set_log_dir other (args st)) st)))
     = fs (final_state (make_run_dirs w sd st)).
Proof.
  intros Hp. rewrite !make_run_dirs_eq.
  assert (Hlp : log_path_of w (args (with_args (set_log_dir other (args st)) st))
                  (fs (with_args (set_log_dir other (args st)) st)) sd
                = log_path_of w (args st) (fs st) sd).
  { unfold log_path_of, os_path_join, run_name_seed_of. cbn [args fs with_args].
    destruct (args st). cbn in *. rewrite Hp. reflexivity. }
  rewrite Hlp. repeat split.
Qed.

(** [--proj_name /tmp/proj --log_dir elsewhere] *)
Lemma absolute_proj_name_drops_log_dir_witness :
  events (make_run_dirs sample_world 1
            (with_args
               (set_log_dir "elsewhere"
                  (mkNamespace [1] false 1 1000 (Some 1000) 4 "Pendulum-v1" "cpu"
                     "/tmp/proj" "run" "logs" None false false float_0_1
                     float_3e_4 1000 300000 float_0_05 3 None 3 3 float_0_0
                     false None None None None 5 50))
               (after_parse
                  (mkNamespace [1] false 1 1000 (Some 1000) 4 "Pendulum-v1" "cpu"
                     "/tmp/proj" "run" "logs" None false false float_0_1
                     float_3e_4 1000 300000 float_0_05 3 None 3 3 float_0_0
                     false None None None None 5 50)
                  ["logs"])))
  = events (make_run_dirs sample_world 1
              (after_parse
                 (mkNamespace [1] false 1 1000 (Some 1000) 4 "Pendulum-v1" "cpu"
                    "/tmp/proj" "run" "logs" None false false float_0_1
                    float_3e_4 1000 300000 float_0_05 3 None 3 3 float_0_0
                    false None None None None 5 50)
                 ["logs"])).
Proof.
  exact (proj1 (proj2 (absolute_proj_name_drops_log_dir sample_world 1
                         (after_parse
                            (mkNamespace [1] false 1 1000 (Some 1000) 4
                               "Pendulum-v1" "cpu" "/tmp/proj" "run" "logs" None
                               false false float_0_1 float_3e_4 1000 300000
                               float_0_05 3 None 3 3 float_0_0 false None None
                               None None 5 50)
                            ["logs"])
                         "elsewhere" eq_refl))).
Defined.

Lemma append_nil_r (s : string) : s ++ "" = s.
Proof. induction s as [|c s IH]; simpl; [reflexivity|]. rewrite IH. reflexivity. Qed.

Lemma os_path_join_common_separator a :
  exists sep,
    (sep = "" \/ sep = "/")
    /\ forall b, startswith_sep b = false -> os_path_join a b = a ++ sep ++ b.
Proof.
  destruct ((a =? "")%string || endswith_sep a) eqn:E.
  - exists "". split; [auto|]. intros b Hb. unfold os_path_join.
    rewrite Hb, E. reflexivity.
  - exists "/". split; [auto|]. intros b Hb. unfold os_path_join.
    rewrite Hb, E. reflexivity.
Qed.

(** X16: the four directories an iteration passes to [os.makedirs] are
    pairwise different paths: monitor files, models and videos of a run never
    share a directory, and none of them is the run directory itself. *)
Theorem run_directories_are_distinct w sd st :
  NoDup (pick made_dir (events (run_seed w sd st))).
Proof.
  rewrite run_seed_made_dir. unfold run_dirs, monitor_path_of, models_path_of,
    video_path_of.
  set (lp := log_path_of w (args st) (fs st) sd).
  destruct (os_path_join_common_separator lp) as (sep & Hsep & Hj).
  rewrite !Hj by reflexivity.
  rewrite <- (append_nil_r lp) at 1.
  assert (Hne : forall x y, x <> y -> lp ++ x <> lp ++ y)
    by (intros x y Hxy H; apply append_cancel_l in H; contradiction).
  repeat constructor; simpl; intros H;
    repeat match type of H with
           | _ \/ _ => destruct H as [H|H]
           | False => contradiction
           end;
    revert H; apply Hne; destruct Hsep as [-> | ->]; discriminate.
Qed.

(** X17: the helper is asked with the file system as the earlier iterations
    left it.  So whenever it keeps the promise of its name at a later
    iteration (the folder it names does not exist then), that iteration gets
    a run directory different from the one of an earlier iteration, also for
    the same seed. *)
Theorem later_iteration_gets_another_directory w sd1 sd2 st st' :
  log_path_of w (args st) (fs st) sd1 <> "" ->
  (forall d, In d (fs (final_state (run_seed w sd1 st))) -> In d (fs st')) ->
  os_path_exists (fs st') (log_path_of w (args st') (fs st') sd2) = false ->
  log_path_of w (args st') (fs st') sd2 <> log_path_of w (args st) (fs st) sd1.
Proof.
  intros Hne Hsub Hfresh Heq.
  assert (Hin : In (log_path_of w (args st) (fs st) sd1)
                  (fs (final_state (run_seed w sd1 st)))).
  { rewrite run_seed_final_state, seed_state_fs. unfold made_dirs.
    apply In_fold_mkdir. right. left. reflexivity. }
  apply Hsub in Hin. rewrite <- Heq in Hin, Hne.
  assert (Ht : os_path_exists (fs st')
                 (log_path_of w (args st') (fs st') sd2) = true)
    by (apply os_path_exists_true; split; assumption).
  rewrite Ht in Hfresh. discriminate.
Qed.

(** [--seed 1 1]: the second iteration gets [test_run_s11]. *)
Lemma later_iteration_gets_another_directory_witness :
  log_path_of sample_world (args (final_state (run_seed sample_world 1 sample_state)))
    (fs (final_state (run_seed sample_world 1 sample_state))) 1
  <> log_path_of sample_world (args sample_state) (fs sample_state) 1.
Proof.
  refine (later_iteration_gets_another_directory sample_world 1 1 sample_state
            (final_state (run_seed sample_world 1 sample_state)) _ _ _).
  - vm_compute. discriminate.
  - intros d H. exact H.
  - vm_compute. reflexivity.
Defined.

(** X18: a command line without [--save_interval] (or with 0) always passes
    the timesteps checks, whatever [timesteps] is, a negative number
    included: line 75 makes the two numbers equal, and a number is at least
    itself and a multiple of itself. *)
Theorem omitted_save_interval_always_passes a files :
  truthy_int (save_interval a) = false ->
  outcome ((default_save_interval ;; check_timesteps) (after_parse a files))
  = Ok tt
  /\ save_interval
       (args (final_state
                ((default_save_interval ;; check_timesteps)
                   (after_parse a files))))
     = Some (timesteps a).
Proof.
  intros Hsi.
  assert (He : effective_save_interval a = timesteps a).
  { unfold effective_save_interval. unfold truthy_int in Hsi.
    destruct (save_interval a) as [z|]; [|reflexivity].
    destruct (z =? 0); [reflexivity|discriminate]. }
  rewrite (bind_Ok _ _ _ _ _ _ (default_save_interval_eq _)), prepend_nil.
  unfold after_parse, with_args. cbn [args learn run fs].
  rewrite check_timesteps_eq.
  assert (Hok : timesteps_ok a = true).
  { unfold timesteps_ok. rewrite He.
    destruct (timesteps a =? 0) eqn:E0; [reflexivity|]. cbn [orb].
    apply Z.eqb_neq in E0.
    rewrite Z.geb_leb, Z.leb_refl, Z.mod_same by exact E0. reflexivity. }
  rewrite Hok. split; [reflexivity|].
  unfold final_state. cbn [fst snd args].
  rewrite save_interval_defaulted, He. reflexivity.
Qed.

(** [--seed 1 2 --env_name Pendulum-v1 --timesteps -5] *)
Lemma omitted_save_interval_always_passes_witness :
  outcome ((default_save_interval ;; check_timesteps)
             (after_parse (set_timesteps (-5) sample_args) sample_files))
  = Ok tt.
Proof.
  exact (proj1 (omitted_save_interval_always_passes
                  (set_timesteps (-5) sample_args) sample_files eq_refl)).
Defined.

(** * The script as a whole: the seeds of the command line *)

(** ** From the command line to the loop *)

Lemma before_loop_eq w a files :
  before_loop w (after_parse a files)
  = if negb (timesteps_ok a)
    then (Raise (AssertionError (timesteps_msg a)), checked_state a files, [])
    else if negb (model_path_ok files a)
    then (Raise (AssertionError (model_path_msg a)), checked_state a files, [])
    else if negb (log_dir_ok files a)
    then (Raise (AssertionError ("The log_dir doesn't exist! " ++ log_dir a)),
          checked_state a files, [])
    else if no_wandb a then (Ok tt, checked_state a files, [])
    else match environ w "WANDB_API_KEY" with
         | Some key => (Ok tt, checked_state a files, [call_wandb_login key])
         | None => (Raise (KeyError "WANDB_API_KEY"), checked_state a files, [])
         end.
Proof.
  unfold before_loop, after_parse, checked_state.
  rewrite (bind_Ok _ _ _ _ _ _ (default_save_interval_eq _)), prepend_nil.
  unfold with_args. cbn [args learn run fs].
  pose proof (check_timesteps_eq a None None files) as Hct.
  destruct (timesteps_ok a); cbn [negb].
  2:{ rewrite (bind_Raise _ _ _ _ _ _ Hct). reflexivity. }
  rewrite (bind_Ok _ _ _ _ _ _ Hct), prepend_nil. clear Hct.
  set (st := mkState (defaulted a) (Some (negb (timesteps a =? 0))) None files).
  pose proof (check_paths_eq st) as Hcp.
  replace (model_path_ok (fs st) (args st)) with (model_path_ok files a)
    in Hcp by reflexivity.
  replace (log_dir_ok (fs st) (args st)) with (log_dir_ok files a)
    in Hcp by reflexivity.
  replace (model_path_msg (args st)) with (model_path_msg a)
    in Hcp by reflexivity.
  replace (log_dir (args st)) with (log_dir a) in Hcp by reflexivity.
  destruct (model_path_ok files a); cbn [negb] in *.
  2:{ rewrite (bind_Raise _ _ _ _ _ _ Hcp). reflexivity. }
  destruct (log_dir_ok files a); cbn [negb] in *.
  2:{ rewrite (bind_Raise _ _ _ _ _ _ Hcp). reflexivity. }
  rewrite (bind_Ok _ _ _ _ _ _ Hcp), prepend_nil. clear Hcp.
  rewrite wandb_setup_eq. reflexivity.
Qed.

(** When lines 74-92 pass, the three checks hold, the login (if any) had its
    key, and the loop starts in [checked_state]. *)
Lemma before_loop_passes w a files :
  outcome (before_loop w (after_parse a files)) = Ok tt ->
  final_state (before_loop w (after_parse a files)) = checked_state a files
  /\ timesteps_ok a = true
  /\ model_path_ok files a = true
  /\ log_dir_ok files a = true
  /\ (no_wandb a = false -> exists key, environ w "WANDB_API_KEY" = Some key).
Proof.
  rewrite before_loop_eq.
  destruct (timesteps_ok a); [|discriminate].
  destruct (model_path_ok files a); [|discriminate].
  destruct (log_dir_ok files a); [|discriminate].
  cbn [negb]. destruct (no_wandb a).
  - intros _. do 4 (split; [reflexivity|]). discriminate.
  - destruct (environ w "WANDB_API_KEY") as [key|]; [|discriminate].
    intros _. do 4 (split; [reflexivity|]). intros _. exists key. reflexivity.
Qed.

(** How the script ends once it has reached the loop. *)
Lemma run_script_outcome w a files sd rest :
  outcome (before_loop w (after_parse a files)) = Ok tt ->
  seed a = sd :: rest ->
  outcome (run_script w a files)
  = if no_wandb a then Raise (NameError "run") else Ok tt.
Proof.
  intros Hpre Hseed. apply before_loop_passes in Hpre.
  destruct Hpre as (_ & H1 & H2 & H3 & Hkey).
  rewrite run_script_eq, H1, H2, H3. cbn [negb].
  destruct (no_wandb a) eqn:Hnw.
  - rewrite Hseed, untracked_loop; [reflexivity|exact Hnw|reflexivity].
  - destruct (Hkey eq_refl) as [key Hk]. rewrite Hk, outcome_triple.
    apply tracked_loop. exact Hnw.
Qed.

(** ** The iterations that run *)



Lemma flat_map_loop_const {B} (c : B) w seeds st :
  flat_map (fun _ : Z * string => [c])
    (combine seeds (loop_log_paths w seeds st))
  = map (fun _ => c) seeds.
Proof.
  revert st. induction seeds as [|sd seeds IH]; intros st; [reflexivity|].
  simpl. rewrite IH. reflexivity.
Qed.

(** With tracking every seed gets its iteration, each in the state the one
    before has left. *)
Lemma tracked_loop_pick {B} (f : Event -> option B)
    (g : Namespace -> Z -> string -> list B) w seeds st :
  (forall a sd lp, pick f (seed_events w a sd lp) = g a sd lp) ->
  (forall r, f (call_run_finish r) = None) ->
  no_wandb (args st) = false ->
  pick f (events (for_each seeds (run_seed w) st))
  = flat_map (fun x => g (args st) (fst x) (snd x))
      (combine seeds (loop_log_paths w seeds st)).
Proof.
  intros Hg Hf. revert st.
  induction seeds as [|sd seeds IH]; intros st Hnw; [reflexivity|].
  rewrite for_each_cons, (tracked_iteration w sd st Hnw).
  unfold prepend. rewrite events_triple, !pick_app, Hg.
  rewrite IH by (rewrite seed_state_args; exact Hnw).
  rewrite seed_state_args.
  cbn [pick loop_log_paths combine flat_map fst snd]. rewrite Hf.
  rewrite app_nil_r. reflexivity.
Qed.

(** The events of a kind [f] over the whole script, once it has reached the
    loop: those of the iterations that run, which are all of them with
    tracking and the first one without. *)
Lemma script_pick {B} (f : Event -> option B)
    (g : Namespace -> Z -> string -> list B) w a files sd rest :
  (forall a sd lp, pick f (seed_events w a sd lp) = g a sd lp) ->
  (forall key, f (call_wandb_login key) = None) ->
  (forall r, f (call_run_finish r) = None) ->
  outcome (before_loop w (after_parse a files)) = Ok tt ->
  seed a = sd :: rest ->
  pick f (events (run_script w a files))
  = flat_map (fun x => g (defaulted a) (fst x) (snd x))
      (if no_wandb a
       then firstn 1 (combine (seed a)
                        (loop_log_paths w (seed a) (checked_state a files)))
       else combine (seed a)
              (loop_log_paths w (seed a) (checked_state a files))).
Proof.
  intros Hg Hlogin Hf Hpre Hseed. apply before_loop_passes in Hpre.
  destruct Hpre as (_ & H1 & H2 & H3 & Hkey).
  rewrite run_script_eq, H1, H2, H3. cbn [negb].
  destruct (no_wandb a) eqn:Hnw.
  - rewrite Hseed, untracked_loop; [|exact Hnw|reflexivity].
    rewrite events_triple, Hg.
    cbn [loop_log_paths combine firstn flat_map fst snd].
    rewrite app_nil_r. reflexivity.
  - destruct (Hkey eq_refl) as [key Hk]. rewrite Hk, events_triple.
    cbn [pick]. rewrite Hlogin.
    exact (tracked_loop_pick f g w (seed a) (checked_state a files)
             Hg Hf Hnw).
Qed.

Lemma seed_events_total_timesteps w a sd log_path :
  pick total_timesteps_of (seed_events w a sd log_path) = [timesteps a].
Proof. split_events; reflexivity. Qed.


(** ** The run directories of the seeds *)




(** ** C6: the directories of the runs *)




(** ** C7: the model of each run *)



(** ** C10: zero timesteps, over the whole script *)

(** C10: take a command line with [timesteps] 0 that passes lines 74-92,
    with seeds that [np.random.seed] takes.  Lines 77-82 evaluate no
    assertion and set [learn] to [False]; [learn] still holds [False] at
    the end, and no block after line 82 reads it.  With tracking, every
    seed gets its call of [model.learn] with [total_timesteps=0] and the
    script ends normally.  With [--no_wandb] the script calls [model.learn]
    once, for the first seed, and ends with the [NameError] of line 237:
    the seeds after the first are not trained. *)
Theorem zero_timesteps_trains_tracked_seeds w a files sd rest :
  timesteps a = 0 ->
  outcome (before_loop w (after_parse a files)) = Ok tt ->
  seed a = sd :: rest ->
  Forall numpy_accepts (seed a) ->
  let x := run_script w a files in
  check_timesteps (final_state (default_save_interval (after_parse a files)))
  = (Ok tt,
     with_learn (Some false)
       (final_state (default_save_interval (after_parse a files))),
     [])
  /\ learn (final_state x) = Some false
  /\ ignores_learn check_paths
  /\ ignores_learn (wandb_setup w)
  /\ ignores_learn (for_each (seed a) (run_seed w))
  /\ (no_wandb a = false ->
      outcome x = Ok tt
      /\ pick total_timesteps_of (events x) = map (fun _ => 0) (seed a))
  /\ (no_wandb a = true ->
      outcome x = Raise (NameError "run")
      /\ pick total_timesteps_of (events x) = [0]).
Proof.
  intros Hz Hpre Hseed Hnp. cbv zeta.
  pose proof (script_pick total_timesteps_of (fun a0 _ _ => [timesteps a0])
                w a files sd rest (seed_events_total_timesteps w)
                (fun _ => eq_refl) (fun _ => eq_refl) Hpre Hseed) as Hp.
  cbv beta in Hp.
  change (timesteps (defaulted a)) with (timesteps a) in Hp. rewrite Hz in Hp.
  pose proof (run_script_outcome w a files sd rest Hpre Hseed) as Ho.
  repeat apply conj.
  - apply check_timesteps_zero. rewrite default_save_interval_eq. exact Hz.
  - destruct (before_loop_passes w a files Hpre) as (_ & H1 & H2 & H3 & Hkey).
    rewrite run_script_eq, H1, H2, H3. cbn [negb].
    assert (Hcs : checked_state a files
                  = with_learn (Some false)
                      (mkState (defaulted a) None None files)).
    { unfold checked_state, with_learn. rewrite Hz. reflexivity. }
    assert (Hl : learn (final_state (for_each (seed a) (run_seed w)
                                       (checked_state a files)))
                 = Some false).
    { rewrite Hcs, (for_each_ignores_learn w (seed a)). reflexivity. }
    destruct (no_wandb a); [exact Hl|].
    destruct (environ w "WANDB_API_KEY"); [exact Hl|].
    unfold checked_state. rewrite Hz. reflexivity.
  - exact check_paths_ignores_learn.
  - exact (wandb_setup_ignores_learn w).
  - exact (for_each_ignores_learn w (seed a)).
  - intros Hnw. rewrite Hnw in Ho, Hp. split; [exact Ho|].
    rewrite Hp. apply flat_map_loop_const.
  - intros Hnw. rewrite Hnw in Ho, Hp. split; [exact Ho|].
    rewrite Hp, Hseed. reflexivity.
Qed.

(** [--seed 1 2 --env_name Pendulum-v1 --timesteps 0 --no_wandb]: two seeds,
    one call of [model.learn]. *)
Lemma zero_timesteps_trains_tracked_seeds_witness :
  let a := set_no_wandb true (set_timesteps 0 sample_args) in
  seed a = [1; 2]
  /\ outcome (run_script sample_world a sample_files)
     = Raise (NameError "run")
  /\ pick total_timesteps_of (events (run_script sample_world a sample_files))
     = [0].
Proof.
  intros a. split; [reflexivity|].
  assert (Hnp : Forall numpy_accepts (seed a)).
  { apply Forall_cons; [unfold numpy_accepts; lia|].
    apply Forall_cons; [unfold numpy_accepts; lia|]. apply Forall_nil. }
  destruct (zero_timesteps_trains_tracked_seeds sample_world a sample_files
              1 [2] eq_refl eq_refl eq_refl Hnp) as (_ & _ & _ & _ & _ & _ & H).
  exact (H eq_refl).
Defined.
